(** * InsightsLM edge functions: the authorization-scoped job-dispatch gateway

    A shallow embedding of the four Deno edge functions

      - [supabase/functions/process-document/index.ts]
      - [supabase/functions/process-additional-sources/index.ts]
      - [supabase/functions/send-chat-message/index.ts]
      - the generate-notebook-content handler (second module in the
        send-chat-message file)

    Every handler is an [async] function of the incoming request that
    reads the process environment, asks the identity verifier who the
    caller is, reads and updates rows of the relational store, and
    performs one outbound [fetch].  The embedding threads the store and
    a chronological trace of those effects through a small monad with
    early [return] and [throw]. *)

From Stdlib Require Import ZArith Ascii String DecimalString.
From stdpp Require Import base option list strings gmap fin_maps.

Set Warnings "-register-all".

Local Open Scope string_scope.
Local Open Scope list_scope.

(** ** JavaScript values *)

(** Values that flow through the handlers: what [JSON.parse] yields, plus
    [undefined] for a property that is not there.  A [JNum n] stands for
    a safe integer ([|n| < 2^53]), which [JSON.parse] represents exactly
    and which prints in plain decimal; fractions and larger magnitudes
    have no value here.  One [ascii] stands for one UTF-16 code unit. *)
Inductive jsval : Type :=
| JUndefined
| JNull
| JBool (b : bool)
| JNum (n : Z)
| JStr (s : string)
| JArr (items : list jsval)
| JObj (props : list (string * jsval)).

Module JS.

(** [!v] is [negb (truthy v)]. *)
Definition truthy (v : jsval) : bool :=
  match v with
  | JUndefined | JNull => false
  | JBool b => b
  | JNum n => negb (n =? 0)%Z
  | JStr s => negb (String.eqb s "")
  | JArr _ | JObj _ => true
  end.

(** Truthiness of [string | undefined | null], the type of
    [req.headers.get(..)] and [Deno.env.get(..)]. *)
Definition truthy_opt (o : option string) : bool :=
  match o with
  | None => false
  | Some s => negb (String.eqb s "")
  end.

Definition string_of_Z (n : Z) : string :=
  NilZero.string_of_int (Z.to_int n).

Fixpoint join (sep : string) (l : list string) : string :=
  match l with
  | [] => ""
  | [x] => x
  | x :: rest => x +:+ sep +:+ join sep rest
  end.

(** [String(v)], as used by template literals and by the query
    builder's [.eq(column, v)], when the conversion returns. *)
Fixpoint to_string (v : jsval) : string :=
  match v with
  | JUndefined => "undefined"
  | JNull => "null"
  | JBool true => "true"
  | JBool false => "false"
  | JNum n => string_of_Z n
  | JStr s => s
  | JArr items =>
      join ","
        ((fix elems (l : list jsval) : list string :=
            match l with
            | [] => []
            | x :: rest =>
                match x with
                | JUndefined | JNull => ""
                | _ => to_string x
                end :: elems rest
            end) items)
  | JObj _ => "[object Object]"
  end.

(** Where [String(v)] throws instead: the conversion of an object goes
    through its [toString] property, and an own property of that name
    in a parsed body is never a function, so that no method is left that
    returns a primitive ([TypeError]).  An array converts its elements
    one by one, [null] and [undefined] excepted. *)
Fixpoint string_throws (v : jsval) : bool :=
  match v with
  | JObj props => existsb (λ kv, String.eqb kv.1 "toString") props
  | JArr items =>
      (fix any (l : list jsval) : bool :=
         match l with
         | [] => false
         | x :: rest => string_throws x || any rest
         end) items
  | _ => false
  end.

(** [obj.k] for a parsed body: own property of an object literal,
    [undefined] otherwise. *)
Fixpoint lookup_prop (k : string) (props : list (string * jsval)) : jsval :=
  match props with
  | [] => JUndefined
  | (k', v) :: rest => if String.eqb k k' then v else lookup_prop k rest
  end.

Definition prop (k : string) (v : jsval) : jsval :=
  match v with
  | JObj props => lookup_prop k props
  | _ => JUndefined
  end.

(** [sourceIds?.[0]] *)
Definition first_elem (v : jsval) : jsval :=
  match v with
  | JUndefined | JNull => JUndefined
  | JArr (x :: _) => x
  | JStr (String c _) => JStr (String c EmptyString)
  | JObj props => lookup_prop "0" props
  | _ => JUndefined
  end.

Definition is_null (v : jsval) : bool :=
  match v with
  | JNull => true
  | _ => false
  end.

(** [a || b] *)
Definition or_else (a b : jsval) : jsval := if truthy a then a else b.

(** [`${v}`] for a [string | undefined]. *)
Definition template_opt (o : option string) : string :=
  match o with
  | Some s => s
  | None => "undefined"
  end.

(** [s.substring(a, b)]: both indices are clamped to the length and
    swapped when out of order. *)
Definition substring (a b : nat) (s : string) : string :=
  let len := String.length s in
  let a' := Nat.min a len in
  let b' := Nat.min b len in
  String.substring (Nat.min a' b') (Nat.max a' b' - Nat.min a' b') s.

(** *** JSON.stringify *)

Definition hex_digit (n : N) : ascii :=
  match n with
  | 0 => "0" | 1 => "1" | 2 => "2" | 3 => "3" | 4 => "4" | 5 => "5"
  | 6 => "6" | 7 => "7" | 8 => "8" | 9 => "9" | 10 => "a" | 11 => "b"
  | 12 => "c" | 13 => "d" | 14 => "e" | _ => "f"
  end%N%char.

(** The double-quote character, as a one-character string. *)
Definition dq : string := String (ascii_of_N 34) EmptyString.

Definition escape_char (c : ascii) : string :=
  let n := N_of_ascii c in
  if (n =? 34)%N then "\" +:+ dq
  else if (n =? 92)%N then "\\"
  else if (n =? 8)%N then "\b"
  else if (n =? 9)%N then "\t"
  else if (n =? 10)%N then "\n"
  else if (n =? 12)%N then "\f"
  else if (n =? 13)%N then "\r"
  else if (n <? 32)%N then
    "\u00" +:+ String (hex_digit (n / 16)) (String (hex_digit (n mod 16)) "")
  else String c "".

Fixpoint escape (s : string) : string :=
  match s with
  | EmptyString => ""
  | String c rest => escape_char c +:+ escape rest
  end.

Definition quote (s : string) : string :=
  dq +:+ escape s +:+ dq.

Fixpoint json_text (v : jsval) : string :=
  match v with
  | JUndefined | JNull => "null"
  | JBool true => "true"
  | JBool false => "false"
  | JNum n => string_of_Z n
  | JStr s => quote s
  | JArr items =>
      "[" +:+ join ","
        ((fix elems (l : list jsval) : list string :=
            match l with
            | [] => []
            | x :: rest => json_text x :: elems rest
            end) items) +:+ "]"
  | JObj props =>
      "{" +:+ join ","
        ((fix members (l : list (string * jsval)) : list string :=
            match l with
            | [] => []
            | (k, x) :: rest =>
                match x with
                | JUndefined => members rest
                | _ => (quote k +:+ ":" +:+ json_text x) :: members rest
                end
            end) props) +:+ "}"
  end.

(** [JSON.stringify(v)] for the object literals the handlers pass to it:
    members whose value is [undefined] are left out, [undefined] inside
    an array prints as [null]. *)
Definition JSON_stringify (v : jsval) : string := json_text v.

End JS.

(** ** The relational store *)

(** The two tables the handlers touch, keyed by primary key [id], with the
    columns they read or write.  The store is taken to be reachable: a
    query is answered from the rows, an accepted update changes the
    matching row. *)
Module Db.

Record source_row : Type := {
  notebook_id : string;
  content : option string;
  processing_status : string
}.

Record notebook_row : Type := {
  user_id : string;
  generation_status : string;
  title : jsval;
  description : jsval;
  icon : jsval;
  color : jsval;
  example_questions : jsval
}.

Record Store : Type := {
  sources : gmap string source_row;
  notebooks : gmap string notebook_row
}.

(** [.from('sources').select('id, notebook_id, notebooks!inner(user_id)')
     .eq('id', id).single()] *)
Definition select_source_owner (st : Store) (id : string) : option (string * string) :=
  src ← sources st !! id;
  nb ← notebooks st !! notebook_id src;
  Some (notebook_id src, user_id nb).

(** [.from('notebooks').select('id, user_id').eq('id', id).single()] *)
Definition select_notebook_owner (st : Store) (id : string) : option string :=
  user_id <$> notebooks st !! id.

(** [.from('sources').select('content').eq('notebook_id', nb).single()]:
    a row only when exactly one source belongs to the notebook. *)
Definition select_single_content (st : Store) (nb : string) : option (option string) :=
  match map_to_list (filter (λ kv, notebook_id kv.2 = nb) (sources st)) with
  | [(_, row)] => Some (content row)
  | _ => None
  end.

Definition set_processing_status (s : string) (r : source_row) : source_row :=
  {| notebook_id := notebook_id r; content := content r; processing_status := s |}.

(** [.from('sources').update({ processing_status: s }).eq('id', id)] *)
Definition update_source_status (st : Store) (id s : string) : Store :=
  {| sources := alter (set_processing_status s) id (sources st);
     notebooks := notebooks st |}.

(** The two shapes of [.from('notebooks').update({..})] in the source. *)
Inductive notebook_update : Type :=
| SetGenerationStatus (s : string)
| SetGenerated (title description icon color example_questions : jsval).

Definition apply_notebook_update (u : notebook_update) (r : notebook_row) : notebook_row :=
  match u with
  | SetGenerationStatus s =>
      {| user_id := user_id r; generation_status := s; title := title r;
         description := description r; icon := icon r; color := color r;
         example_questions := example_questions r |}
  | SetGenerated t d i c q =>
      {| user_id := user_id r; generation_status := "completed"; title := t;
         description := d; icon := i; color := c; example_questions := q |}
  end.

(** [.from('notebooks').update(u).eq('id', id)] *)
Definition update_notebook (st : Store) (id : string) (u : notebook_update) : Store :=
  {| sources := sources st;
     notebooks := alter (apply_notebook_update u) id (notebooks st) |}.

End Db.

(** ** Requests, responses and the collaborators of one call *)

(** What [await x.json()] does, for the request as for the processor's
    response: it rejects with an error, or resolves to the parsed value. *)
Inductive body_outcome : Type :=
| BodyThrows (message : string)
| BodyValue (v : jsval).

(** The part of the incoming request the handlers look at:
    [req.method], [req.headers.get('Authorization')], [req.json()]. *)
Record Request : Type := {
  method : string;
  authorization : option string;
  body : body_outcome
}.

(** [new Response(text, { status, headers })] *)
Record Response : Type := {
  status : nat;
  headers : list (string * string);
  text : option string
}.

(** What [await fetch(..)] does: it rejects, or resolves to a response
    with a status, a body text and what [response.json()] makes of it. *)
Inductive fetch_result : Type :=
| FetchThrows (message : string)
| FetchResponse (code : nat) (bodyText : string) (json : body_outcome).

(** [response.ok] *)
Definition ok (code : nat) : bool := ((200 <=? code) && (code <=? 299))%nat.

(** Everything outside the handler that one call depends on: the process
    environment, the identity verifier (from the Authorization header to
    the verified user's id), the external processor, the clock, and the
    store's verdict on an update of a notebook row whose [error] the
    handler reads (none, or the error it reports; the row is then left
    as it was). *)
Record World : Type := {
  Deno_env : gmap string string;
  auth_getUser : string → option string;
  fetch : string → list (string * string) → string → fetch_result;
  Date_toISOString : string;
  update_error : string → Db.notebook_update → option string
}.

(** ** Effects *)

(** What a call does to the outside, in order: environment reads, the
    verifier's answer, store queries with their results, store updates,
    and the outbound call with the processor's answer.  Console output is
    left out; evaluating what is logged is not, where it can throw. *)
Inductive event : Type :=
| EvEnvGet (name : string) (value : option string)
| EvGetUser (authHeader : string) (user : option string)
| EvSourceOwner (id : string) (row : option (string * string))
| EvNotebookOwner (id : string) (owner : option string)
| EvSourceContent (notebook : string) (row : option (option string))
| EvUpdateSource (id : string) (processing_status : string)
| EvUpdateNotebook (id : string) (u : Db.notebook_update)
| EvFetch (url : string) (hdrs : list (string * string)) (payload : string)
          (res : fetch_result).

Inductive outcome (A : Type) : Type :=
| Value (a : A)
| Returned (r : Response)
| Thrown (message : string).
Arguments Value {A} a.
Arguments Returned {A} r.
Arguments Thrown {A} message.

(** A computation inside the handler's [try] block. *)
Definition M (A : Type) : Type := Db.Store → outcome A * Db.Store * list event.

#[global] Instance M_ret : MRet M := λ A a st, (Value a, st, []).

#[global] Instance M_bind : MBind M := λ A B f m st,
  match m st with
  | (Value a, st1, t1) =>
      match f a st1 with
      | (o, st2, t2) => (o, st2, t1 ++ t2)
      end
  | (Returned r, st1, t1) => (Returned r, st1, t1)
  | (Thrown e, st1, t1) => (Thrown e, st1, t1)
  end.

(** [return r] *)
Definition return_ {A} (r : Response) : M A := λ st, (Returned r, st, []).

(** [throw new Error(message)] *)
Definition throw {A} (message : string) : M A := λ st, (Thrown message, st, []).

Definition when_ (c : bool) (m : M unit) : M unit :=
  if c then m else mret tt.

Definition corsHeaders : list (string * string) :=
  [("Access-Control-Allow-Origin", "*");
   ("Access-Control-Allow-Headers", "authorization, x-client-info, apikey, content-type")].

(** [new Response(JSON.stringify(v), { status, headers: { ...corsHeaders,
    'Content-Type': 'application/json' } })] *)
Definition json_response (code : nat) (v : jsval) : Response :=
  {| status := code;
     headers := corsHeaders ++ [("Content-Type", "application/json")];
     text := Some (JS.JSON_stringify v) |}.

Definition error_body (message : string) : jsval :=
  JObj [("error", JStr message)].

(** [String(v)] inside the [try] block: a slot [${v}] of a template
    literal, or the filter value of the query builder's
    [.eq(column, v)]. *)
Definition to_String (v : jsval) : M string :=
  if JS.string_throws v then throw "Cannot convert object to primitive value"
  else mret (JS.to_string v).

Section Primitives.

Variable w : World.

(** [Deno.env.get(name)] *)
Definition env_get (name : string) : M (option string) := λ st,
  let v := Deno_env w !! name in
  (Value v, st, [EvEnvGet name v]).

(** [createClient(SUPABASE_URL ?? '', key ?? '', ..)]: both variables
    are read, and the client's constructor throws when the URL, or else
    the key, is empty.  A URL that is set is taken to be the store's.
    The client itself is the connection to the store or to the identity
    verifier. *)
Definition createClient (keyName : string) : M unit :=
  supabaseUrl ← env_get "SUPABASE_URL";
  supabaseKey ← env_get keyName;
  when_ (negb (JS.truthy_opt supabaseUrl)) (throw "supabaseUrl is required.");;
  when_ (negb (JS.truthy_opt supabaseKey)) (throw "supabaseKey is required.").

(** [supabaseAuth.auth.getUser()] on a client carrying the caller's
    Authorization header: the verified user's id, or nothing when the
    verifier reports an error or no user. *)
Definition getUser (authHeader : string) : M (option string) := λ st,
  let u := auth_getUser w authHeader in
  (Value u, st, [EvGetUser authHeader u]).

(** The three queries and the updates of the privileged client.  The
    query builder puts its filter value into the request as [String(v)]. *)
Definition select_source_owner (id : jsval) : M (option (string * string)) :=
  key ← to_String id;
  (λ st,
     let r := Db.select_source_owner st key in
     (Value r, st, [EvSourceOwner key r])) : M _.

Definition select_notebook_owner (id : jsval) : M (option string) :=
  key ← to_String id;
  (λ st,
     let r := Db.select_notebook_owner st key in
     (Value r, st, [EvNotebookOwner key r])) : M _.

Definition select_single_content (nb : jsval) : M (option (option string)) :=
  key ← to_String nb;
  (λ st,
     let r := Db.select_single_content st key in
     (Value r, st, [EvSourceContent key r])) : M _.

(** The status writes: [await ..update({ .. }).eq('id', id)] with the
    result dropped.  They are taken as accepted. *)
Definition update_source_status (id : jsval) (s : string) : M unit :=
  key ← to_String id;
  (λ st, (Value tt, Db.update_source_status st key s, [EvUpdateSource key s])) : M _.

Definition update_notebook (id : jsval) (u : Db.notebook_update) : M unit :=
  key ← to_String id;
  (λ st, (Value tt, Db.update_notebook st key u, [EvUpdateNotebook key u])) : M _.

(** [const { error } = await ..update(u).eq('id', id)]: the update whose
    outcome the handler reads.  A refused update changes nothing. *)
Definition update_notebook_error (id : jsval) (u : Db.notebook_update)
  : M (option string) :=
  key ← to_String id;
  (λ st,
     match update_error w key u with
     | Some e => (Value (Some e), st, [EvUpdateNotebook key u])
     | None => (Value None, Db.update_notebook st key u, [EvUpdateNotebook key u])
     end) : M _.

(** [await fetch(url, { method: 'POST', headers, body })] *)
Definition do_fetch (url : string) (hdrs : list (string * string)) (payload : string)
  : M (nat * string * body_outcome) := λ st,
  let r := fetch w url hdrs payload in
  (match r with
   | FetchThrows e => Thrown e
   | FetchResponse code txt js => Value (code, txt, js)
   end, st, [EvFetch url hdrs payload r]).

(** [await x.json()] *)
Definition read_json (b : body_outcome) : M jsval :=
  match b with
  | BodyThrows e => throw e
  | BodyValue v => mret v
  end.

(** [const { first, .. } = await req.json()]: [null] cannot be
    destructured, every other value can (a property that is not there
    reads as [undefined]). *)
Definition destructure (first : string) (b : body_outcome) : M jsval :=
  v ← read_json b;
  if JS.is_null v then
    throw ("Cannot destructure property '" +:+ first
           +:+ "' of '(intermediate value)' as it is null.")
  else mret v.

End Primitives.

(** ** The handlers *)

(** What a call leaves behind: the response, the store, the trace. *)
Record Result : Type := {
  response : Response;
  store : Db.Store;
  trace : list event
}.

(** [try { body } catch (error) { return handler(error.message) }] *)
Definition try_catch (body : M Response) (handler : string → Response)
    (st : Db.Store) : Result :=
  match body st with
  | (Value r, st', t) => {| response := r; store := st'; trace := t |}
  | (Returned r, st', t) => {| response := r; store := st'; trace := t |}
  | (Thrown e, st', t) => {| response := handler e; store := st'; trace := t |}
  end.

(** [if (req.method === 'OPTIONS') return new Response(text, { headers:
    corsHeaders })], in front of the [try] block of every handler. *)
Definition serve (preflight : option string) (body : M Response)
    (handler : string → Response) (st : Db.Store) (req : Request) : Result :=
  if String.eqb (method req) "OPTIONS" then
    {| response := {| status := 200; headers := corsHeaders; text := preflight |};
       store := st; trace := [] |}
  else try_catch body handler st.

(** [if (!o) { otherwise }], then [o] is a non-empty string. *)
Definition truthy_or (o : option string) (otherwise : M string) : M string :=
  match o with
  | Some s => if String.eqb s "" then otherwise else mret s
  | None => otherwise
  end.

(** The authorization check shared, line for line, by the four handlers:
    the id of the verified user. *)
Definition authorization_check (w : World) (req : Request) : M string :=
  authHeader ← truthy_or (authorization req)
    (return_ (json_response 401 (error_body "Missing authorization header")));
  createClient w "SUPABASE_ANON_KEY";;
  user ← getUser w authHeader;
  match user with
  | None =>
      return_ (json_response 401 (error_body "Unauthorized - invalid or expired token"))
  | Some id => mret id
  end.

Module ProcessDocument.

(** The webhook payload; [base1] and [base2] are the two readings of
    [SUPABASE_URL] inside the template literals.  The handler has
    evaluated the slot [${filePath}] by then. *)
Definition payload (base1 base2 : option string) (sourceId filePath sourceType : jsval)
  : jsval :=
  JObj [("source_id", sourceId);
        ("file_url", JStr (JS.template_opt base1
                           +:+ "/storage/v1/object/public/sources/"
                           +:+ JS.to_string filePath));
        ("file_path", filePath);
        ("source_type", sourceType);
        ("callback_url", JStr (JS.template_opt base2
                               +:+ "/functions/v1/process-document-callback"))].

Definition webhookHeaders (webhookAuthHeader : option string) : list (string * string) :=
  ("Content-Type", "application/json") ::
  match webhookAuthHeader with
  | Some a => if String.eqb a "" then [] else [("Authorization", a)]
  | None => []
  end.

Definition body (w : World) (req : Request) : M Response :=
  user_id ← authorization_check w req;
  b ← destructure "sourceId" (body req);
  let sourceId := JS.prop "sourceId" b in
  let filePath := JS.prop "filePath" b in
  let sourceType := JS.prop "sourceType" b in
  when_ (negb (JS.truthy sourceId) || negb (JS.truthy filePath)
         || negb (JS.truthy sourceType))
    (return_ (json_response 400
       (error_body "sourceId, filePath, and sourceType are required")));;
  createClient w "SUPABASE_SERVICE_ROLE_KEY";;
  source ← select_source_owner sourceId;
  match source with
  | None => return_ (json_response 404 (error_body "Source not found"))
  | Some (_, owner) =>
      when_ (negb (String.eqb owner user_id))
        (return_ (json_response 403
           (error_body "Forbidden - you do not own this resource")));;
      webhookUrl ← env_get w "DOCUMENT_PROCESSING_WEBHOOK_URL";
      webhookAuthHeader ← env_get w "NOTEBOOK_GENERATION_AUTH";
      webhookUrl ← truthy_or webhookUrl
        (update_source_status sourceId "failed";;
         return_ (json_response 500
           (error_body "Document processing webhook URL not configured")));
      base1 ← env_get w "SUPABASE_URL";
      to_String filePath;;
      base2 ← env_get w "SUPABASE_URL";
      '(code, errorText, js) ← do_fetch w webhookUrl (webhookHeaders webhookAuthHeader)
          (JS.JSON_stringify (payload base1 base2 sourceId filePath sourceType));
      if negb (ok code) then
        update_source_status sourceId "failed";;
        return_ (json_response 500
          (JObj [("error", JStr "Document processing failed");
                 ("details", JStr errorText)]))
      else
        result ← read_json js;
        mret (json_response 200
          (JObj [("success", JBool true);
                 ("message", JStr "Document processing initiated");
                 ("result", result)]))
  end.

Definition handler (w : World) : Db.Store → Request → Result := λ st req,
  serve (Some "ok") (body w req)
    (λ _, json_response 500 (error_body "Internal server error")) st req.

End ProcessDocument.

Module ProcessAdditionalSources.

(** [type === literal] *)
Definition is_literal (v : jsval) (literal : string) : bool :=
  match v with
  | JStr s => String.eqb s literal
  | _ => false
  end.

(** The [if / else if / else throw] that prepares the webhook payload;
    [None] is the [else] branch. *)
Definition webhookPayload (type notebookId urls title content timestamp sourceIds : jsval)
  : option jsval :=
  if is_literal type "multiple-websites" then
    Some (JObj [("type", JStr "multiple-websites");
                ("notebookId", notebookId);
                ("urls", urls);
                ("sourceIds", sourceIds);
                ("timestamp", timestamp)])
  else if is_literal type "copied-text" then
    Some (JObj [("type", JStr "copied-text");
                ("notebookId", notebookId);
                ("title", title);
                ("content", content);
                ("sourceId", JS.first_elem sourceIds);
                ("timestamp", timestamp)])
  else None.

(** The [{ 'Content-Type': .., ...corsHeaders }] responses of this
    handler's success and catch paths. *)
Definition json_response' (code : nat) (v : jsval) : Response :=
  {| status := code;
     headers := ("Content-Type", "application/json") :: corsHeaders;
     text := Some (JS.JSON_stringify v) |}.

Definition body (w : World) (req : Request) : M Response :=
  user_id ← authorization_check w req;
  b ← destructure "type" (body req);
  let type := JS.prop "type" b in
  let notebookId := JS.prop "notebookId" b in
  let urls := JS.prop "urls" b in
  let title := JS.prop "title" b in
  let content := JS.prop "content" b in
  let timestamp := JS.prop "timestamp" b in
  let sourceIds := JS.prop "sourceIds" b in
  createClient w "SUPABASE_SERVICE_ROLE_KEY";;
  notebook ← select_notebook_owner notebookId;
  match notebook with
  | None => return_ (json_response 404 (error_body "Notebook not found"))
  | Some owner =>
      when_ (negb (String.eqb owner user_id))
        (return_ (json_response 403
           (error_body "Forbidden - you do not own this notebook")));;
      (* the template literal that is logged: [${type}], [${notebookId}] *)
      to_String type;;
      to_String notebookId;;
      webhookUrl ← env_get w "ADDITIONAL_SOURCES_WEBHOOK_URL";
      webhookUrl ← truthy_or webhookUrl
        (throw "ADDITIONAL_SOURCES_WEBHOOK_URL not configured");
      authToken ← env_get w "NOTEBOOK_GENERATION_AUTH";
      authToken ← truthy_or authToken
        (throw "NOTEBOOK_GENERATION_AUTH not configured");
      webhookPayload ←
        match webhookPayload type notebookId urls title content timestamp sourceIds with
        | Some p => mret p
        | None =>
            unsupported ← to_String type;
            throw ("Unsupported type: " +:+ unsupported)
        end;
      '(code, responseText, _) ← do_fetch w webhookUrl
          ([("Content-Type", "application/json"); ("Authorization", authToken)]
             ++ corsHeaders)
          (JS.JSON_stringify webhookPayload);
      if negb (ok code) then
        throw ("Webhook request failed: " +:+ JS.string_of_Z (Z.of_nat code)
               +:+ " - " +:+ responseText)
      else
        mret (json_response' 200
          (JObj [("success", JBool true);
                 ("message", JStr (JS.to_string type
                                   +:+ " data sent to webhook successfully"));
                 ("webhookResponse", JStr responseText)]))
  end.

Definition handler (w : World) : Db.Store → Request → Result := λ st req,
  serve None (body w req)
    (λ message, json_response' 500
       (JObj [("error", JStr message); ("success", JBool false)])) st req.

End ProcessAdditionalSources.

Module SendChatMessage.

Definition payload (session_id message : jsval) (user_id timestamp : string) : jsval :=
  JObj [("session_id", session_id);
        ("message", message);
        ("user_id", JStr user_id);
        ("timestamp", JStr timestamp)].

Definition body (w : World) (req : Request) : M Response :=
  user_id ← authorization_check w req;
  b ← destructure "session_id" (body req);
  let session_id := JS.prop "session_id" b in
  let message := JS.prop "message" b in
  webhookUrl ← env_get w "NOTEBOOK_CHAT_URL";
  webhookAuthHeader ← env_get w "NOTEBOOK_GENERATION_AUTH";
  webhookUrl ← truthy_or webhookUrl
    (throw "NOTEBOOK_CHAT_URL environment variable not set");
  webhookAuthHeader ← truthy_or webhookAuthHeader
    (throw "NOTEBOOK_GENERATION_AUTH environment variable not set");
  '(code, _, js) ← do_fetch w webhookUrl
      [("Content-Type", "application/json"); ("Authorization", webhookAuthHeader)]
      (JS.JSON_stringify (payload session_id message user_id (Date_toISOString w)));
  if negb (ok code) then
    throw ("Webhook responded with status: " +:+ JS.string_of_Z (Z.of_nat code))
  else
    webhookData ← read_json js;
    mret (json_response 200
      (JObj [("success", JBool true); ("data", webhookData)])).

(** [error.message || 'Failed to send message to webhook'] *)
Definition handler (w : World) : Db.Store → Request → Result := λ st req,
  serve None (body w req)
    (λ message, json_response 500
       (error_body (if String.eqb message "" then "Failed to send message to webhook"
                    else message))) st req.

End SendChatMessage.

Module GenerateNotebookContent.

(** An [o : string | undefined] past its [if (!o) return ..] guard. *)
Definition the (o : option string) : string := default "" o.

(** [payload] once [payload.filePath = filePath] has run. *)
Definition file_payload (sourceType filePath : jsval) : jsval :=
  JObj [("sourceType", sourceType); ("filePath", filePath)].

(** [payload] after the [else] branch, [source] being the row the
    content query returned: [if (source?.content) payload.content =
    source.content.substring(0, 5000)]. *)
Definition text_payload (sourceType : jsval) (source : option (option string)) : jsval :=
  match source with
  | Some (Some content) =>
      if String.eqb content "" then JObj [("sourceType", sourceType)]
      else JObj [("sourceType", sourceType);
                 ("content", JStr (JS.substring 0 5000 content))]
  | _ => JObj [("sourceType", sourceType)]
  end.

(** The default of [icon: notebookIcon || '..'].  Its first character
    lies outside the range of one [ascii], so the literal is given byte
    for byte as the source file has it; the handler stores it and never
    looks inside. *)
Definition default_icon : string := "üìù".

Definition failed (notebookId : jsval) (message : string) : M Response :=
  update_notebook notebookId (Db.SetGenerationStatus "failed");;
  return_ (json_response 500 (error_body message)).

Definition body (w : World) (req : Request) : M Response :=
  user_id ← authorization_check w req;
  b ← destructure "notebookId" (body req);
  let notebookId := JS.prop "notebookId" b in
  let filePath := JS.prop "filePath" b in
  let sourceType := JS.prop "sourceType" b in
  when_ (negb (JS.truthy notebookId) || negb (JS.truthy sourceType))
    (return_ (json_response 400 (error_body "notebookId and sourceType are required")));;
  createClient w "SUPABASE_SERVICE_ROLE_KEY";;
  notebook ← select_notebook_owner notebookId;
  match notebook with
  | None => return_ (json_response 404 (error_body "Notebook not found"))
  | Some owner =>
      when_ (negb (String.eqb owner user_id))
        (return_ (json_response 403
           (error_body "Forbidden - you do not own this notebook")));;
      webServiceUrl ← env_get w "NOTEBOOK_GENERATION_URL";
      webhookAuthHeader ← env_get w "NOTEBOOK_GENERATION_AUTH";
      when_ (negb (JS.truthy_opt webServiceUrl) || negb (JS.truthy_opt webhookAuthHeader))
        (return_ (json_response 500 (error_body "Web service configuration missing")));;
      update_notebook notebookId (Db.SetGenerationStatus "generating");;
      payload ←
        (if JS.truthy filePath then mret (file_payload sourceType filePath)
         else
           source ← select_single_content notebookId;
           mret (text_payload sourceType source));
      '(code, _, js) ← do_fetch w (the webServiceUrl)
          [("Content-Type", "application/json");
           ("Authorization", the webhookAuthHeader)]
          (JS.JSON_stringify payload);
      if negb (ok code) then
        failed notebookId "Failed to generate content from web service"
      else
        generatedData ← read_json js;
        if negb (JS.truthy generatedData && JS.truthy (JS.prop "output" generatedData)) then
          failed notebookId "Invalid response format from web service"
        else
          let output := JS.prop "output" generatedData in
          let title := JS.prop "title" output in
          let description := JS.prop "summary" output in
          let notebookIcon := JS.prop "notebook_icon" output in
          let backgroundColor := JS.prop "background_color" output in
          let exampleQuestions :=
            JS.or_else (JS.prop "example_questions" output) (JArr []) in
          if negb (JS.truthy title) then
            failed notebookId "No title in response from web service"
          else
            updateError ← update_notebook_error w notebookId
              (Db.SetGenerated title
                 (JS.or_else description JNull)
                 (JS.or_else notebookIcon (JStr default_icon))
                 (JS.or_else backgroundColor (JStr "bg-gray-100"))
                 (JS.or_else exampleQuestions (JArr [])));
            match updateError with
            | Some _ =>
                return_ (json_response 500 (error_body "Failed to update notebook"))
            | None =>
                mret (json_response 200
                  (JObj [("success", JBool true);
                         ("title", title);
                         ("description", description);
                         ("icon", notebookIcon);
                         ("color", backgroundColor);
                         ("exampleQuestions", exampleQuestions);
                         ("message", JStr "Notebook content generated successfully")]))
            end
  end.

Definition handler (w : World) : Db.Store → Request → Result := λ st req,
  serve (Some "ok") (body w req)
    (λ _, json_response 500 (error_body "Internal server error")) st req.

End GenerateNotebookContent.

(** ** The four endpoints, and what a call's trace tells *)

Inductive endpoint : Type :=
| process_document
| process_additional_sources
| send_chat_message
| generate_notebook_content.

Definition handle (ep : endpoint) : World → Db.Store → Request → Result :=
  match ep with
  | process_document => ProcessDocument.handler
  | process_additional_sources => ProcessAdditionalSources.handler
  | send_chat_message => SendChatMessage.handler
  | generate_notebook_content => GenerateNotebookContent.handler
  end.

Definition is_dispatch (e : event) : bool :=
  match e with
  | EvFetch _ _ _ _ => true
  | _ => false
  end.

Definition is_write (e : event) : bool :=
  match e with
  | EvUpdateSource _ _ | EvUpdateNotebook _ _ => true
  | _ => false
  end.

Definition is_lookup (e : event) : bool :=
  match e with
  | EvSourceOwner _ _ | EvNotebookOwner _ _ | EvSourceContent _ _ => true
  | _ => false
  end.

(** The outbound calls of a trace, the store writes, the store reads. *)
Definition dispatches (t : list event) : list event := List.filter is_dispatch t.
Definition writes (t : list event) : list event := List.filter is_write t.
Definition lookups (t : list event) : list event := List.filter is_lookup t.

(** The identity the verifier returned during the call. *)
Fixpoint verified_caller (t : list event) : option string :=
  match t with
  | [] => None
  | EvGetUser _ (Some u) :: _ => Some u
  | _ :: rest => verified_caller rest
  end.

(** The owner the ownership lookup resolved during the call: directly
    (notebook) or through the source's parent notebook. *)
Fixpoint resolved_owner (t : list event) : option string :=
  match t with
  | [] => None
  | EvSourceOwner _ (Some (_, o)) :: _ => Some o
  | EvNotebookOwner _ (Some o) :: _ => Some o
  | _ :: rest => resolved_owner rest
  end.

(** The processor answered some dispatch with a status outside 200..299. *)
Definition dispatch_non_2xx (t : list event) : bool :=
  existsb (λ e, match e with
                | EvFetch _ _ _ (FetchResponse code _ _) => negb (ok code)
                | _ => false
                end) t.

(** The call looked [name] up in the environment and found nothing
    usable there (unset, or set to the empty string). *)
Definition config_missing (name : string) (t : list event) : bool :=
  existsb (λ e, match e with
                | EvEnvGet n v => String.eqb n name && negb (JS.truthy_opt v)
                | _ => false
                end) t.

(** The body of an outbound call. *)
Definition payload_of (e : event) : option string :=
  match e with
  | EvFetch _ _ p _ => Some p
  | _ => None
  end.

Definition payloads (t : list event) : list string := omap payload_of t.

(** [k] as destructured from the request body. *)
Definition request_prop (k : string) (req : Request) : jsval :=
  match body req with
  | BodyValue v => JS.prop k v
  | BodyThrows _ => JUndefined
  end.

(** The status field of the resource a job is about, read from the store:
    [sources.processing_status] of the source for a document job,
    [notebooks.generation_status] of the notebook for the jobs that name a
    notebook.  A chat message names no resource. *)
Definition status_after (ep : endpoint) (req : Request) (st : Db.Store) : option string :=
  match ep with
  | process_document =>
      Db.processing_status <$> Db.sources st !! JS.to_string (request_prop "sourceId" req)
  | process_additional_sources | generate_notebook_content =>
      Db.generation_status <$> Db.notebooks st !! JS.to_string (request_prop "notebookId" req)
  | send_chat_message => None
  end.

(** The environment variable that holds the processor's endpoint. *)
Definition endpoint_url (ep : endpoint) : string :=
  match ep with
  | process_document => "DOCUMENT_PROCESSING_WEBHOOK_URL"
  | process_additional_sources => "ADDITIONAL_SOURCES_WEBHOOK_URL"
  | send_chat_message => "NOTEBOOK_CHAT_URL"
  | generate_notebook_content => "NOTEBOOK_GENERATION_URL"
  end.

(** The variable that holds the secret shared with the processor. *)
Definition shared_secret : string := "NOTEBOOK_GENERATION_AUTH".

(** The configuration a handler refuses to dispatch without.  The
    document handler sends the secret only [if (webhookAuthHeader)]. *)
Definition required_config (ep : endpoint) : list string :=
  match ep with
  | process_document => [endpoint_url ep]
  | _ => [endpoint_url ep; shared_secret]
  end.

(** The part of a trace that precedes the first outbound call. *)
Fixpoint before_dispatch (t : list event) : list event :=
  match t with
  | [] => []
  | e :: rest => if is_dispatch e then [] else e :: before_dispatch rest
  end.

(** The body fields a handler tests before it goes on
    ([if (!sourceId || !filePath || !sourceType)],
    [if (!notebookId || !sourceType)]); the other two handlers test none. *)
Definition validated_fields (ep : endpoint) : list string :=
  match ep with
  | process_document => ["sourceId"; "filePath"; "sourceType"]
  | generate_notebook_content => ["notebookId"; "sourceType"]
  | process_additional_sources | send_chat_message => []
  end.

(** The [error] of the 400 response. *)
Definition validation_message (ep : endpoint) : string :=
  match ep with
  | process_document => "sourceId, filePath, and sourceType are required"
  | generate_notebook_content => "notebookId and sourceType are required"
  | process_additional_sources | send_chat_message => ""
  end.

(** The payload builder of each endpoint, as a function of what it reads:
    the environment, the request body, the verified caller and the clock
    (chat relay), the stored text content (content generation).  [None]:
    no payload is built (unsupported ingestion type). *)
Definition job_payload (ep : endpoint) (env : gmap string string) (req : Request)
    (user_id now : string) (stored : option (option string)) : option jsval :=
  match ep with
  | process_document =>
      Some (ProcessDocument.payload (env !! "SUPABASE_URL") (env !! "SUPABASE_URL")
              (request_prop "sourceId" req) (request_prop "filePath" req)
              (request_prop "sourceType" req))
  | process_additional_sources =>
      ProcessAdditionalSources.webhookPayload
        (request_prop "type" req) (request_prop "notebookId" req)
        (request_prop "urls" req) (request_prop "title" req)
        (request_prop "content" req) (request_prop "timestamp" req)
        (request_prop "sourceIds" req)
  | send_chat_message =>
      Some (SendChatMessage.payload (request_prop "session_id" req)
              (request_prop "message" req) user_id now)
  | generate_notebook_content =>
      Some (if JS.truthy (request_prop "filePath" req)
            then GenerateNotebookContent.file_payload (request_prop "sourceType" req)
                   (request_prop "filePath" req)
            else GenerateNotebookContent.text_payload (request_prop "sourceType" req)
                   stored)
  end.

(** What the content query of the content-generation handler returns. *)
Definition stored_content (st : Db.Store) (req : Request) : option (option string) :=
  Db.select_single_content st (JS.to_string (request_prop "notebookId" req)).

(** The Job Request a call carries: the body fields the payload builder
    of its endpoint reads.  The ingestion builder reads [type] first and
    then the fields of the branch taken. *)
Definition job_request (ep : endpoint) (req : Request) : list jsval :=
  match ep with
  | process_document =>
      [request_prop "sourceId" req; request_prop "filePath" req;
       request_prop "sourceType" req]
  | process_additional_sources =>
      let type := request_prop "type" req in
      if ProcessAdditionalSources.is_literal type "multiple-websites" then
        [type; request_prop "notebookId" req; request_prop "urls" req;
         request_prop "sourceIds" req; request_prop "timestamp" req]
      else if ProcessAdditionalSources.is_literal type "copied-text" then
        [type; request_prop "notebookId" req; request_prop "title" req;
         request_prop "content" req; JS.first_elem (request_prop "sourceIds" req);
         request_prop "timestamp" req]
      else [type]
  | send_chat_message =>
      [request_prop "session_id" req; request_prop "message" req]
  | generate_notebook_content =>
      [request_prop "notebookId" req; request_prop "sourceType" req;
       request_prop "filePath" req]
  end.

(** ** Further observers *)

(** The processor's answer to the call's dispatch. *)
Fixpoint dispatch_answer (t : list event) : option fetch_result :=
  match t with
  | [] => None
  | EvFetch _ _ _ res :: _ => Some res
  | _ :: rest => dispatch_answer rest
  end.

(** The verifier reported an error or no user. *)
Definition verifier_refused (t : list event) : bool :=
  existsb (λ e, match e with
                | EvGetUser _ None => true
                | _ => false
                end) t.

(** The ownership lookup found no row. *)
Definition owner_lookup_empty (t : list event) : bool :=
  existsb (λ e, match e with
                | EvSourceOwner _ None | EvNotebookOwner _ None => true
                | _ => false
                end) t.

(** The statuses a handler can answer with. *)
Definition status_codes (ep : endpoint) : list nat :=
  match ep with
  | process_document | generate_notebook_content => [200; 400; 401; 403; 404; 500]
  | process_additional_sources => [200; 401; 403; 404; 500]
  | send_chat_message => [200; 401; 500]
  end.

(** What the caller is told when the processor answers [code] with the
    body [txt], [code] outside 200..299. *)
Definition upstream_failure_body (ep : endpoint) (code : nat) (txt : string) : jsval :=
  match ep with
  | process_document =>
      JObj [("error", JStr "Document processing failed"); ("details", JStr txt)]
  | process_additional_sources =>
      JObj [("error", JStr ("Webhook request failed: " +:+ JS.string_of_Z (Z.of_nat code)
                            +:+ " - " +:+ txt));
            ("success", JBool false)]
  | send_chat_message =>
      JObj [("error", JStr ("Webhook responded with status: "
                            +:+ JS.string_of_Z (Z.of_nat code)))]
  | generate_notebook_content =>
      JObj [("error", JStr "Failed to generate content from web service")]
  end.

(** [st'] differs from [st] at most in the [processing_status] of the
    source [id]. *)
Definition only_source_status (id : string) (st st' : Db.Store) : Prop :=
  Db.notebooks st' = Db.notebooks st
  ∧ ∀ id',
      (id' ≠ id → Db.sources st' !! id' = Db.sources st !! id')
      ∧ Db.notebook_id <$> Db.sources st' !! id' = Db.notebook_id <$> Db.sources st !! id'
      ∧ Db.content <$> Db.sources st' !! id' = Db.content <$> Db.sources st !! id'.

(** [st'] differs from [st] at most in the row of the notebook [id], and
    not in its owner. *)
Definition only_notebook_fields (id : string) (st st' : Db.Store) : Prop :=
  Db.sources st' = Db.sources st
  ∧ ∀ id',
      (id' ≠ id → Db.notebooks st' !! id' = Db.notebooks st !! id')
      ∧ Db.user_id <$> Db.notebooks st' !! id' = Db.user_id <$> Db.notebooks st !! id'.

(** The notebook columns written from the processor's [output]. *)
Definition generated_fields (output : jsval) : Db.notebook_update :=
  Db.SetGenerated (JS.prop "title" output)
    (JS.or_else (JS.prop "summary" output) JNull)
    (JS.or_else (JS.prop "notebook_icon" output)
       (JStr GenerateNotebookContent.default_icon))
    (JS.or_else (JS.prop "background_color" output) (JStr "bg-gray-100"))
    (JS.or_else (JS.prop "example_questions" output) (JArr [])).

(** The success envelope of the content-generation handler. *)
Definition generated_body (output : jsval) : jsval :=
  JObj [("success", JBool true);
        ("title", JS.prop "title" output);
        ("description", JS.prop "summary" output);
        ("icon", JS.prop "notebook_icon" output);
        ("color", JS.prop "background_color" output);
        ("exampleQuestions", JS.or_else (JS.prop "example_questions" output) (JArr []));
        ("message", JStr "Notebook content generated successfully")].

(** The content query of the content-generation handler. *)
Definition is_content_query (e : event) : bool :=
  match e with
  | EvSourceContent _ _ => true
  | _ => false
  end.

(** What the caller of a document, ingestion or chat job is told when the
    processor accepts it with the body text [txt], which parses to [v].
    (The content-generation handler answers from the parsed output.) *)
Definition accepted_body (ep : endpoint) (req : Request) (txt : string) (v : jsval)
  : option jsval :=
  match ep with
  | process_document =>
      Some (JObj [("success", JBool true);
                  ("message", JStr "Document processing initiated");
                  ("result", v)])
  | process_additional_sources =>
      Some (JObj [("success", JBool true);
                  ("message", JStr (JS.to_string (request_prop "type" req)
                                    +:+ " data sent to webhook successfully"));
                  ("webhookResponse", JStr txt)])
  | send_chat_message => Some (JObj [("success", JBool true); ("data", v)])
  | generate_notebook_content => None
  end.

(** ** A small deployment to run the handlers on *)

Module Demo.

Definition notebook (owner status : string) : Db.notebook_row :=
  {| Db.user_id := owner; Db.generation_status := status; Db.title := JNull;
     Db.description := JNull; Db.icon := JNull; Db.color := JNull;
     Db.example_questions := JNull |}.

(** Notebook [n1] of alice, holding the single text source [s1]. *)
Definition st : Db.Store :=
  {| Db.sources :=
       {[ "s1" := {| Db.notebook_id := "n1"; Db.content := Some "hello";
                     Db.processing_status := "pending" |} ]};
     Db.notebooks := {[ "n1" := notebook "alice" "idle" ]} |}.

Definition verifier (h : string) : option string :=
  if h =? "Bearer alice" then Some "alice"
  else if h =? "Bearer bob" then Some "bob"
  else None.

Definition env : gmap string string :=
  list_to_map
    [("SUPABASE_URL", "https://base");
     ("SUPABASE_ANON_KEY", "anon");
     ("SUPABASE_SERVICE_ROLE_KEY", "service");
     ("DOCUMENT_PROCESSING_WEBHOOK_URL", "https://n8n/doc");
     ("ADDITIONAL_SOURCES_WEBHOOK_URL", "https://n8n/add");
     ("NOTEBOOK_CHAT_URL", "https://n8n/chat");
     ("NOTEBOOK_GENERATION_URL", "https://n8n/gen");
     ("NOTEBOOK_GENERATION_AUTH", "secret")].

(** A processor that accepts every job. *)
Definition accepting : string → list (string * string) → string → fetch_result :=
  λ _ _ _, FetchResponse 200 "{}" (BodyValue (JObj [])).

(** A processor that answers every job with 502. *)
Definition failing : string → list (string * string) → string → fetch_result :=
  λ _ _ _, FetchResponse 502 "Bad Gateway" (BodyThrows "Unexpected token").

Definition world (e : gmap string string)
    (f : string → list (string * string) → string → fetch_result) (now : string)
  : World :=
  {| Deno_env := e; auth_getUser := verifier; fetch := f; Date_toISOString := now;
     update_error := λ _ _, None |}.

Definition w : World := world env accepting "2025-01-01T00:00:00.000Z".
Definition w_failing : World := world env failing "2025-01-01T00:00:00.000Z".

Definition post (auth : option string) (fields : list (string * jsval)) : Request :=
  {| method := "POST"; authorization := auth; body := BodyValue (JObj fields) |}.

(** [n] units of text. *)
Fixpoint filler (n : nat) : string :=
  match n with
  | 0 => ""
  | S k => String "a" (filler k)
  end.

Definition document_fields : list (string * jsval) :=
  [("sourceId", JStr "s1"); ("filePath", JStr "docs/a.pdf"); ("sourceType", JStr "pdf")].

Definition websites_fields : list (string * jsval) :=
  [("type", JStr "multiple-websites"); ("notebookId", JStr "n1");
   ("urls", JArr [JStr "https://a"; JStr "https://b"]);
   ("sourceIds", JArr [JStr "s1"; JStr "s2"]);
   ("timestamp", JStr "2025-01-01T00:00:00.000Z")].

Definition generation_fields : list (string * jsval) :=
  [("notebookId", JStr "n1"); ("sourceType", JStr "text")].

Definition chat_fields : list (string * jsval) :=
  [("session_id", JStr "n1"); ("message", JStr "hi")].

End Demo.

(** ** Further processors to run the handlers against *)

Module Fixtures.

Definition now : string := "2025-01-01T00:00:00.000Z".

(** A processor that cannot be reached: [fetch] rejects. *)
Definition unreachable : string → list (string * string) → string → fetch_result :=
  λ _ _ _, FetchThrows "error sending request".

(** A processor that accepts with a body that is not JSON. *)
Definition garbled : string → list (string * string) → string → fetch_result :=
  λ _ _ _, FetchResponse 200 "Workflow was started" (BodyThrows "Unexpected token W").

(** A generator that returns a title and nothing else. *)
Definition titled : string → list (string * string) → string → fetch_result :=
  λ _ _ _, FetchResponse 200 "" (BodyValue (JObj [("output", JObj [("title", JStr "T")])])).

(** A generator that returns an output without a title. *)
Definition untitled : string → list (string * string) → string → fetch_result :=
  λ _ _ _, FetchResponse 200 "" (BodyValue (JObj [("output", JObj [])])).

Definition w_unreachable : World := Demo.world Demo.env unreachable now.
Definition w_garbled : World := Demo.world Demo.env garbled now.
Definition w_titled : World := Demo.world Demo.env titled now.
Definition w_untitled : World := Demo.world Demo.env untitled now.

Definition as_alice (fields : list (string * jsval)) : Request :=
  Demo.post (Some "Bearer alice") fields.

(** Two URLs and one source id. *)
Definition uneven_websites : list (string * jsval) :=
  [("type", JStr "multiple-websites"); ("notebookId", JStr "n1");
   ("urls", JArr [JStr "https://a"; JStr "https://b"]);
   ("sourceIds", JArr [JStr "s1"]);
   ("timestamp", JStr now)].

Definition file_generation_fields : list (string * jsval) :=
  [("notebookId", JStr "n1"); ("sourceType", JStr "pdf"); ("filePath", JStr "docs/a.pdf")].

(** Notebook [n1] of alice with two text sources. *)
Definition st_two_sources : Db.Store :=
  {| Db.sources :=
       {[ "s1" := {| Db.notebook_id := "n1"; Db.content := Some "hello";
                     Db.processing_status := "completed" |};
          "s2" := {| Db.notebook_id := "n1"; Db.content := Some "world";
                     Db.processing_status := "completed" |} ]};
     Db.notebooks := {[ "n1" := Demo.notebook "alice" "idle" ]} |}.

(** A store that refuses the update with the generated fields. *)
Definition w_refusing : World :=
  {| Deno_env := Demo.env; auth_getUser := Demo.verifier; fetch := titled;
     Date_toISOString := now;
     update_error := λ _ _, Some "permission denied for table notebooks" |}.
End Fixtures.

(** ** Symbolic execution of a handler *)

(** The handlers are straight-line code with early exits: each theorem
    below walks their paths, splitting on the tests in program order. *)
Ltac unfold_handlers :=
  unfold handle, ProcessDocument.handler, ProcessAdditionalSources.handler,
    SendChatMessage.handler, GenerateNotebookContent.handler, serve, try_catch,
    ProcessDocument.body, ProcessAdditionalSources.body, SendChatMessage.body,
    GenerateNotebookContent.body, GenerateNotebookContent.failed,
    authorization_check, destructure, read_json, createClient, truthy_or, when_,
    getUser, env_get, select_source_owner, select_notebook_owner,
    select_single_content, update_source_status, update_notebook,
    update_notebook_error, to_String, do_fetch,
    return_, throw, mbind, M_bind, mret, M_ret in *.

(** A test is open when what it scrutinizes holds no other test. *)
Ltac split_open_test scrutinee :=
  lazymatch scrutinee with
  | context [match _ with _ => _ end] => fail
  | _ => destruct scrutinee eqn:?
  end.

(** One case split on the first test of the handler that is still open. *)
Ltac branch :=
  match goal with
  | |- context [match ?scrutinee with _ => _ end] => split_open_test scrutinee
  end;
  cbv beta iota.

(** All paths of [handle ep w st req], one goal for each, under the
    equation that names the result. *)
Ltac paths :=
  unfold_handlers; cbv beta iota; repeat branch.

(** Projections and trace observers at the end of a path. *)
Ltac leaf :=
  cbn [trace response store status text json_response verified_caller resolved_owner
       dispatches writes lookups payloads payload_of omap list_omap List.filter
       is_dispatch is_write is_lookup app dispatch_non_2xx config_missing existsb
       ProcessAdditionalSources.json_response'].

(** Every path of a handler, with the result substituted. *)
Ltac run_handler ep w st req :=
  let r := fresh "r" in
  let Hr := fresh "Hr" in
  remember (handle ep w st req) as r eqn:Hr; revert Hr;
  destruct ep; paths; intros ->; leaf.

(** Evaluate the comparisons of variable names in [H]. *)
Ltac config_facts H :=
  cbn [existsb required_config endpoint_url shared_secret config_missing
       String.eqb Ascii.eqb Bool.eqb andb orb negb JS.truthy_opt] in H.

(** Split the passed [a || b] guards into their parts. *)
Ltac bool_facts :=
  repeat match goal with
  | H : _ || _ = false |- _ => apply orb_false_elim in H; destruct H
  end.

(** Close a path on which the tests passed contradict [Hd]. *)
Ltac contradict_tests Hd :=
  repeat match goal with H : _ = false |- _ => rewrite H in Hd end;
  cbn [negb orb andb] in Hd; discriminate.

(** Every path of the handler of one given endpoint. *)
Ltac run_one :=
  match goal with
  | |- context [handle ?ep ?w ?st ?req] =>
      let r := fresh "r" in
      let Hr := fresh "Hr" in
      remember (handle ep w st req) as r eqn:Hr; revert Hr;
      paths; intros ->; leaf
  end.

(** The further observers of a result. *)
Ltac observe :=
  cbn [headers dispatch_answer verifier_refused owner_lookup_empty existsb orb
       status_codes length].

(** * Properties

    ** Auxiliary facts *)

Lemma eqb_negb_false (a b : string) : negb (a =? b) = false → a = b.
Proof. intros H. apply negb_false_iff in H. by apply String.eqb_eq. Qed.

(** ** The store after an update *)

Lemma select_source_owner_Some (st : Db.Store) (id : string) (x : string * string) :
  Db.select_source_owner st id = Some x → is_Some (Db.sources st !! id).
Proof.
  unfold Db.select_source_owner. destruct (Db.sources st !! id); [eauto|]. discriminate.
Qed.

Lemma select_notebook_owner_Some (st : Db.Store) (id : string) (x : string) :
  Db.select_notebook_owner st id = Some x → is_Some (Db.notebooks st !! id).
Proof.
  unfold Db.select_notebook_owner. destruct (Db.notebooks st !! id); [eauto|]. discriminate.
Qed.

Lemma source_status_updated (st : Db.Store) (id s : string) :
  is_Some (Db.sources st !! id) →
  Db.processing_status <$> Db.sources (Db.update_source_status st id s) !! id = Some s.
Proof.
  intros [row Hrow]. cbn. rewrite lookup_alter_eq, Hrow. reflexivity.
Qed.

Lemma notebook_update_keeps (st : Db.Store) (id : string) (u : Db.notebook_update) :
  is_Some (Db.notebooks st !! id) →
  is_Some (Db.notebooks (Db.update_notebook st id u) !! id).
Proof.
  intros [row Hrow]. cbn. rewrite lookup_alter_eq, Hrow. eauto.
Qed.

Lemma notebook_status_updated (st : Db.Store) (id s : string) :
  is_Some (Db.notebooks st !! id) →
  Db.generation_status <$>
    Db.notebooks (Db.update_notebook st id (Db.SetGenerationStatus s)) !! id = Some s.
Proof.
  intros [row Hrow]. cbn. rewrite lookup_alter_eq, Hrow. reflexivity.
Qed.

(** ** [substring(0, n)] *)








(** ** What is sent *)

(** Every outbound body is the serialized payload of the endpoint's
    builder. *)
Lemma dispatched_payload
    (ep : endpoint) (w : World) (st : Db.Store) (req : Request) (p : string) :
  let r := handle ep w st req in
  In p (payloads (trace r)) →
  ∃ u, verified_caller (trace r) = Some u
       ∧ JS.JSON_stringify <$>
           job_payload ep (Deno_env w) req u (Date_toISOString w) (stored_content st req)
         = Some p.
Proof.
  intros r; subst r.
  run_handler ep w st req; intros Hp; cbn [In] in Hp; destruct_or?; try done; subst p.
  all: eexists; split; [reflexivity|].
  all: unfold job_payload, stored_content, request_prop;
    match goal with H : body _ = _ |- _ => rewrite H end.
  all: repeat match goal with H : _ = _ |- _ => rewrite H end; try reflexivity.
Qed.

(** ** Frames, answers and payloads *)

Lemma only_source_status_refl (id : string) (st : Db.Store) :
  only_source_status id st st.
Proof. by split. Qed.

Lemma only_source_status_update (id s : string) (st : Db.Store) :
  only_source_status id st (Db.update_source_status st id s).
Proof.
  split; [reflexivity|]. intros id'. cbn. split_and!.
  - intros Hne. by rewrite lookup_alter_ne.
  - destruct (decide (id = id')) as [->|Hne].
    + rewrite lookup_alter_eq. by destruct (Db.sources st !! id').
    + by rewrite lookup_alter_ne.
  - destruct (decide (id = id')) as [->|Hne].
    + rewrite lookup_alter_eq. by destruct (Db.sources st !! id').
    + by rewrite lookup_alter_ne.
Qed.

Lemma only_notebook_fields_refl (id : string) (st : Db.Store) :
  only_notebook_fields id st st.
Proof. by split. Qed.

Lemma only_notebook_fields_update
    (id : string) (st st' : Db.Store) (u : Db.notebook_update) :
  only_notebook_fields id st st' →
  only_notebook_fields id st (Db.update_notebook st' id u).
Proof.
  intros [Hs Hn]. split; [exact Hs|]. intros id'. destruct (Hn id') as [Hne Hu]. cbn.
  split.
  - intros Hid. rewrite lookup_alter_ne by done. by apply Hne.
  - rewrite <- Hu. destruct (decide (id = id')) as [->|Hid].
    + rewrite lookup_alter_eq. destruct (Db.notebooks st' !! id'); [|done].
      by destruct u.
    + by rewrite lookup_alter_ne.
Qed.

Lemma truthy_prop (k : string) (v : jsval) :
  JS.truthy (JS.prop k v) = true → JS.truthy v = true.
Proof. by destruct v. Qed.

Lemma or_else_twice (a b : jsval) :
  JS.truthy b = true → JS.or_else (JS.or_else a b) b = JS.or_else a b.
Proof.
  intros Hb. unfold JS.or_else. destruct (JS.truthy a) eqn:Ha; by rewrite ?Ha, ?Hb.
Qed.

Lemma notebook_updated_twice
    (st : Db.Store) (id s : string) (t d i c q : jsval) :
  Db.notebooks
    (Db.update_notebook (Db.update_notebook st id (Db.SetGenerationStatus s)) id
       (Db.SetGenerated t d i c q)) !! id
  = Db.apply_notebook_update (Db.SetGenerated t d i c q) <$> Db.notebooks st !! id.
Proof.
  cbn. rewrite !lookup_alter_eq. by destruct (Db.notebooks st !! id).
Qed.

Lemma verified_caller_from_header
    (ep : endpoint) (w : World) (st : Db.Store) (req : Request) (u : string) :
  verified_caller (trace (handle ep w st req)) = Some u →
  ∃ h, authorization req = Some h ∧ auth_getUser w h = Some u.
Proof.
  run_handler ep w st req; intros Hu; try discriminate; simplify_eq; eauto.
Qed.

Lemma dispatched_job_payload
    (ep : endpoint) (w : World) (st : Db.Store) (req : Request) (p : string) :
  In p (payloads (trace (handle ep w st req))) →
  ∃ u j, verified_caller (trace (handle ep w st req)) = Some u
         ∧ job_payload ep (Deno_env w) req u (Date_toISOString w) (stored_content st req)
           = Some j
         ∧ p = JS.JSON_stringify j.
Proof.
  intros Hp. apply dispatched_payload in Hp as (u & Hu & Hp).
  destruct (job_payload _ _ _ _ _ _) as [j|] eqn:Hj; [|discriminate].
  exists u, j. split_and!; [exact Hu | exact Hj |].
  cbn in Hp. congruence.
Qed.

(** The payload an endpoint builds depends on the request through its
    Job Request only. *)
Lemma job_payload_of_job_request
    (ep : endpoint) (env : gmap string string) (req1 req2 : Request)
    (u now : string) (stored : option (option string)) :
  job_request ep req1 = job_request ep req2 →
  job_payload ep env req1 u now stored = job_payload ep env req2 u now stored.
Proof.
  destruct ep; unfold job_request, job_payload.
  - intros [= -> -> ->]. reflexivity.
  - unfold ProcessAdditionalSources.webhookPayload.
    destruct (ProcessAdditionalSources.is_literal (request_prop "type" req1)
                "multiple-websites"),
             (ProcessAdditionalSources.is_literal (request_prop "type" req2)
                "multiple-websites"),
             (ProcessAdditionalSources.is_literal (request_prop "type" req1)
                "copied-text"),
             (ProcessAdditionalSources.is_literal (request_prop "type" req2)
                "copied-text");
      cbv iota; intros Hjob; try discriminate Hjob; try reflexivity;
      injection Hjob as ?; congruence.
  - intros [= -> ->]. reflexivity.
  - intros [= _ -> ->]. reflexivity.
Qed.

(** The update the content-generation handler builds from the generator's
    output. *)
Lemma generated_fields_update (output : jsval) :
  Db.SetGenerated (JS.prop "title" output)
    (JS.or_else (JS.prop "summary" output) JNull)
    (JS.or_else (JS.prop "notebook_icon" output)
       (JStr GenerateNotebookContent.default_icon))
    (JS.or_else (JS.prop "background_color" output) (JStr "bg-gray-100"))
    (JS.or_else (JS.or_else (JS.prop "example_questions" output) (JArr [])) (JArr []))
  = generated_fields output.
Proof. unfold generated_fields. by rewrite or_else_twice. Qed.

(** The content query answers with a row exactly when one and only one
    source belongs to the notebook. *)
Lemma single_content_row
    (st : Db.Store) (nb : string) (c : option string) :
  Db.select_single_content st nb = Some c ↔
  ∃ id row,
    Db.sources st !! id = Some row ∧ Db.notebook_id row = nb ∧ Db.content row = c
    ∧ ∀ id' row', Db.sources st !! id' = Some row' → Db.notebook_id row' = nb → id' = id.
Proof.
  unfold Db.select_single_content.
  set (m := filter (λ kv, Db.notebook_id kv.2 = nb) (Db.sources st)).
  assert (Hin : ∀ i x, (i, x) ∈ map_to_list m ↔ Db.sources st !! i = Some x ∧ Db.notebook_id x = nb).
  { intros i x. rewrite elem_of_map_to_list. unfold m. by rewrite map_lookup_filter_Some. }
  pose proof (NoDup_map_to_list m) as Hnd.
  destruct (map_to_list m) as [|[id row] [|[id2 row2] l]] eqn:Hl.
  - split; [discriminate|]. intros (id & row & Hs & Hn & _ & _).
    assert ((id, row) ∈ @nil (string * Db.source_row)) as Hx by (apply Hin; done).
    by apply elem_of_nil in Hx.
  - split.
    + intros [= <-]. exists id, row.
      destruct (proj1 (Hin id row)) as [Hs Hn]; [apply list_elem_of_here|].
      split_and!; try done. intros id' row' Hs' Hn'.
      assert ((id', row') ∈ [(id, row)]) as Hx by (apply Hin; done).
      apply list_elem_of_singleton in Hx. congruence.
    + intros (id' & row' & Hs & Hn & Hc & _).
      assert ((id', row') ∈ [(id, row)]) as Hx by (apply Hin; done).
      apply list_elem_of_singleton in Hx. congruence.
  - split; [discriminate|]. intros (id' & row' & _ & _ & _ & Huniq).
    destruct (proj1 (Hin id row)) as [Hs Hn]; [apply list_elem_of_here|].
    destruct (proj1 (Hin id2 row2)) as [Hs2 Hn2];
      [apply list_elem_of_further, list_elem_of_here|].
    assert (id = id2) by (rewrite (Huniq _ _ Hs Hn), (Huniq _ _ Hs2 Hn2); done).
    subst id2. assert (row = row2) by congruence. subst row2.
    exfalso. apply NoDup_cons in Hnd as [Hnotin _]. apply Hnotin, list_elem_of_here.
Qed.

(** ** Ownership *)

(** C1. Whenever the owner resolved during a call differs from the caller
    the verifier identified, the handler answers 403, sends nothing to the
    processor and writes nothing to the store.  (Three handlers resolve an
    owner; the chat relay never does.) *)
Theorem owner_mismatch_is_forbidden
    (ep : endpoint) (w : World) (st : Db.Store) (req : Request) (u o : string) :
  let r := handle ep w st req in
  verified_caller (trace r) = Some u →
  resolved_owner (trace r) = Some o →
  o ≠ u →
  status (response r) = 403
  ∧ dispatches (trace r) = []
  ∧ writes (trace r) = []
  ∧ store r = st.
Proof.
  intros r; subst r.
  run_handler ep w st req; intros Hu Ho Hne; try discriminate;
    try (split_and!; reflexivity).
  all: exfalso; apply Hne; simplify_eq;
    match goal with H : negb (_ =? _) = false |- _ => exact (eqb_negb_false _ _ H) end.
Qed.

Lemma owner_mismatch_is_forbidden_witness :
  let r := handle process_document Demo.w Demo.st
             (Demo.post (Some "Bearer bob") Demo.document_fields) in
  status (response r) = 403 ∧ dispatches (trace r) = [] ∧ writes (trace r) = []
  ∧ store r = Demo.st.
Proof.
  apply (owner_mismatch_is_forbidden process_document Demo.w Demo.st
           (Demo.post (Some "Bearer bob") Demo.document_fields) "bob" "alice").
  - vm_compute. reflexivity.
  - vm_compute. reflexivity.
  - discriminate.
Defined.

(** ** Authentication *)

(** C4, as stated, fails on the preflight branch, which answers before the
    header is read: an OPTIONS request without Authorization header gets
    200. *)
Lemma preflight_without_authorization :
  let req := {| method := "OPTIONS"; authorization := None;
                body := BodyThrows "Unexpected end of JSON input" |} in
  let r := handle process_document Demo.w Demo.st req in
  ¬ (authorization req = None →
     status (response r) = 401 ∧ writes (trace r) = [] ∧ store r = Demo.st).
Proof.
  intros req r H.
  destruct H as [H _]; [reflexivity|].
  vm_compute in H. discriminate.
Qed.

(** C4, amended.  A call other than the OPTIONS preflight that carries no
    Authorization header is answered 401 and nothing is written to the
    store. *)
Theorem missing_authorization_is_401
    (ep : endpoint) (w : World) (st : Db.Store) (req : Request) :
  method req ≠ "OPTIONS" →
  authorization req = None →
  let r := handle ep w st req in
  status (response r) = 401 ∧ writes (trace r) = [] ∧ store r = st.
Proof.
  intros Hm Ha r; subst r.
  apply String.eqb_neq in Hm.
  destruct ep; unfold_handlers; rewrite Hm, Ha; cbv beta iota; leaf; done.
Qed.

Lemma missing_authorization_is_401_witness :
  let r := handle send_chat_message Demo.w Demo.st (Demo.post None Demo.chat_fields) in
  status (response r) = 401 ∧ writes (trace r) = [] ∧ store r = Demo.st.
Proof.
  apply (missing_authorization_is_401 send_chat_message Demo.w Demo.st
           (Demo.post None Demo.chat_fields)).
  - discriminate.
  - reflexivity.
Defined.

(** ** Dispatch failure *)

(** C2, as stated, fails on the multi-source ingestion endpoint: the
    processor answers 502, the caller gets 500, and the notebook is still
    [idle]; the handler has written nothing. *)
Lemma failed_ingestion_leaves_status :
  let req := Demo.post (Some "Bearer alice") Demo.websites_fields in
  let r := handle process_additional_sources Demo.w_failing Demo.st req in
  ¬ (dispatch_non_2xx (trace r) = true →
     status_after process_additional_sources req (store r) = Some "failed"
     ∧ status (response r) = 500).
Proof.
  intros req r H.
  assert (Hs : status_after process_additional_sources req (store r) = Some "idle")
    by (vm_compute; reflexivity).
  destruct H as [H _]; [vm_compute; reflexivity|].
  rewrite Hs in H. discriminate.
Qed.

(** C2, amended.  When the processor answers a dispatch with a status
    outside 200..299, the caller gets 500.  After a document-processing
    call the source's [processing_status] is then [failed], after a
    content-generation call the notebook's [generation_status] is
    [failed]; the multi-source ingestion and chat relay handlers write
    nothing. *)
Theorem failed_dispatch_outcome
    (ep : endpoint) (w : World) (st : Db.Store) (req : Request) :
  let r := handle ep w st req in
  dispatch_non_2xx (trace r) = true →
  status (response r) = 500
  ∧ match ep with
    | process_document | generate_notebook_content =>
        status_after ep req (store r) = Some "failed"
    | process_additional_sources | send_chat_message =>
        writes (trace r) = [] ∧ store r = st
    end.
Proof.
  intros r; subst r.
  run_handler ep w st req; intros Hd; cbn [orb] in Hd; rewrite ?orb_false_r in Hd;
    try congruence; try (split_and!; reflexivity).
  all: split; [reflexivity|]; unfold status_after, request_prop;
    match goal with H : body _ = _ |- _ => rewrite H end.
  all: first
    [ apply source_status_updated; eauto using select_source_owner_Some
    | apply notebook_status_updated, notebook_update_keeps;
      eauto using select_notebook_owner_Some ].
Qed.

Lemma failed_dispatch_outcome_witness :
  let req := Demo.post (Some "Bearer alice") Demo.document_fields in
  let r := handle process_document Demo.w_failing Demo.st req in
  status (response r) = 500
  ∧ status_after process_document req (store r) = Some "failed".
Proof.
  apply (failed_dispatch_outcome process_document Demo.w_failing Demo.st
           (Demo.post (Some "Bearer alice") Demo.document_fields)).
  vm_compute. reflexivity.
Defined.

(** ** Dispatch configuration *)

(** C3, as stated, fails on the document endpoint: with
    [DOCUMENT_PROCESSING_WEBHOOK_URL] unset the caller gets 500 and the
    source's [processing_status] goes from [pending] to [failed]. *)
Lemma missing_url_marks_source_failed :
  let w := Demo.world (delete "DOCUMENT_PROCESSING_WEBHOOK_URL" Demo.env)
             Demo.accepting "2025-01-01T00:00:00.000Z" in
  let req := Demo.post (Some "Bearer alice") Demo.document_fields in
  let r := handle process_document w Demo.st req in
  ¬ (config_missing (endpoint_url process_document) (trace r) = true →
     status (response r) = 500
     ∧ status_after process_document req (store r)
       = status_after process_document req Demo.st).
Proof.
  intros w req r H.
  destruct H as [_ H]; [vm_compute; reflexivity|].
  vm_compute in H. discriminate.
Qed.

(** The document endpoint does not require the shared secret: without it
    the job is sent with a Content-Type header only. *)
Example document_job_without_secret :
  let w := Demo.world (delete shared_secret Demo.env)
             Demo.accepting "2025-01-01T00:00:00.000Z" in
  let r := handle process_document w Demo.st
             (Demo.post (Some "Bearer alice") Demo.document_fields) in
  config_missing shared_secret (trace r) = true
  ∧ status (response r) = 200
  ∧ ∃ p res, dispatches (trace r)
             = [EvFetch "https://n8n/doc" [("Content-Type", "application/json")] p res].
Proof. vm_compute. eauto. Qed.

(** C3, amended.  A call that looks up a configuration value its handler
    requires (the endpoint URL; the shared secret too, except on the
    document endpoint) and finds it missing is answered 500 and nothing is
    dispatched.  Content generation, multi-source ingestion and chat relay
    then leave the store untouched; document processing has set the
    source's [processing_status] to [failed]. *)
Theorem missing_config_outcome
    (ep : endpoint) (w : World) (st : Db.Store) (req : Request) :
  let r := handle ep w st req in
  existsb (λ name, config_missing name (trace r)) (required_config ep) = true →
  status (response r) = 500
  ∧ dispatches (trace r) = []
  ∧ match ep with
    | process_document => status_after ep req (store r) = Some "failed"
    | _ => writes (trace r) = [] ∧ store r = st
    end.
Proof.
  intros r; subst r.
  run_handler ep w st req; intros Hd; config_facts Hd; try discriminate;
    try (split_and!; reflexivity); bool_facts; try contradict_tests Hd.
  all: split_and!; try reflexivity; unfold status_after, request_prop;
    match goal with H : body _ = _ |- _ => rewrite H end.
  all: apply source_status_updated; eauto using select_source_owner_Some.
Qed.

Lemma missing_config_outcome_witness :
  let w := Demo.world (delete shared_secret Demo.env)
             Demo.accepting "2025-01-01T00:00:00.000Z" in
  let r := handle generate_notebook_content w Demo.st
             (Demo.post (Some "Bearer alice") Demo.generation_fields) in
  status (response r) = 500 ∧ dispatches (trace r) = []
  ∧ writes (trace r) = [] ∧ store r = Demo.st.
Proof.
  apply (missing_config_outcome generate_notebook_content
           (Demo.world (delete shared_secret Demo.env)
              Demo.accepting "2025-01-01T00:00:00.000Z")
           Demo.st (Demo.post (Some "Bearer alice") Demo.generation_fields)).
  vm_compute. reflexivity.
Defined.

(** ** The in-progress status *)

(** C5, as stated, fails on the document endpoint: a call that passes
    every check and is dispatched has written nothing before the
    dispatch. *)
Lemma document_job_sent_without_status_write :
  let r := handle process_document Demo.w Demo.st
             (Demo.post (Some "Bearer alice") Demo.document_fields) in
  ¬ (verified_caller (trace r) = Some "alice" →
     resolved_owner (trace r) = Some "alice" →
     existsb (λ name, config_missing name (trace r))
       [endpoint_url process_document; shared_secret] = false →
     dispatches (trace r) ≠ [] ∧ writes (before_dispatch (trace r)) ≠ []).
Proof.
  intros r H.
  destruct H as [_ H]; [vm_compute; reflexivity ..|].
  apply H. vm_compute. reflexivity.
Qed.

(** C5, amended.  A content-generation call that passes the
    authentication, ownership and configuration checks is dispatched, and
    the one store write that precedes the dispatch sets the notebook's
    [generation_status] to [generating]. *)
Theorem generation_marks_in_progress
    (w : World) (st : Db.Store) (req : Request) (u : string) :
  let r := handle generate_notebook_content w st req in
  verified_caller (trace r) = Some u →
  resolved_owner (trace r) = Some u →
  existsb (λ name, config_missing name (trace r))
    (required_config generate_notebook_content) = false →
  dispatches (trace r) ≠ []
  ∧ writes (before_dispatch (trace r))
    = [EvUpdateNotebook (JS.to_string (request_prop "notebookId" req))
         (Db.SetGenerationStatus "generating")].
Proof.
  intros r; subst r. run_one; intros Hu Ho Hc; try discriminate.
  all: cbn [before_dispatch is_dispatch writes List.filter is_write].
  all: simplify_eq.
  all: try (rewrite String.eqb_refl in *; discriminate).
  all: try (config_facts Hc; rewrite ?orb_false_r in Hc; congruence).
  all: unfold request_prop; match goal with H : body _ = _ |- _ => rewrite H end.
  all: split; [discriminate | reflexivity].
Qed.

Lemma generation_marks_in_progress_witness :
  let r := handle generate_notebook_content Demo.w Demo.st
             (Demo.post (Some "Bearer alice") Demo.generation_fields) in
  dispatches (trace r) ≠ []
  ∧ writes (before_dispatch (trace r))
    = [EvUpdateNotebook "n1" (Db.SetGenerationStatus "generating")].
Proof.
  apply (generation_marks_in_progress Demo.w Demo.st
           (Demo.post (Some "Bearer alice") Demo.generation_fields) "alice");
    vm_compute; reflexivity.
Defined.

(** ** Required fields *)

(** C6, as stated, fails in two ways.  On the multi-source ingestion
    endpoint a multiple-websites body with neither [urls] nor [sourceIds]
    nor [timestamp] goes through the ownership lookup, is dispatched, and
    the caller gets 200.  And on the document endpoint the body [null],
    which holds none of the required fields, is answered 500 from the
    catch block, not 400. *)
Lemma incomplete_bodies_not_answered_400 :
  let req := Demo.post (Some "Bearer alice")
               [("type", JStr "multiple-websites"); ("notebookId", JStr "n1")] in
  let r := handle process_additional_sources Demo.w Demo.st req in
  let req' := {| method := "POST"; authorization := Some "Bearer alice";
                 body := BodyValue JNull |} in
  let r' := handle process_document Demo.w Demo.st req' in
  ¬ (request_prop "urls" req = JUndefined →
     status (response r) = 400 ∧ lookups (trace r) = [] ∧ dispatches (trace r) = [])
  ∧ ¬ (request_prop "sourceId" req' = JUndefined →
       status (response r') = 400 ∧ lookups (trace r') = []
       ∧ dispatches (trace r') = []).
Proof.
  intros req r req' r'. split; intros H.
  - destruct H as [H _]; [reflexivity|]. vm_compute in H. discriminate.
  - destruct H as [H _]; [reflexivity|]. vm_compute in H. discriminate.
Qed.

(** C6, amended.  An authenticated document-processing call whose body
    is JSON, not [null], and lacks [sourceId], [filePath] or
    [sourceType], and an authenticated content-generation call whose body
    is JSON, not [null], and lacks [notebookId] or [sourceType] (absent,
    or present with a falsy value), is answered 400 with an error that
    names the required fields, before any store lookup, dispatch or
    write. *)
Theorem missing_field_is_400
    (ep : endpoint) (w : World) (st : Db.Store) (req : Request)
    (u k : string) (b : jsval) :
  let r := handle ep w st req in
  verified_caller (trace r) = Some u →
  body req = BodyValue b →
  JS.is_null b = false →
  In k (validated_fields ep) →
  JS.truthy (JS.prop k b) = false →
  status (response r) = 400
  ∧ text (response r) = Some (JS.JSON_stringify (error_body (validation_message ep)))
  ∧ lookups (trace r) = []
  ∧ dispatches (trace r) = []
  ∧ writes (trace r) = [].
Proof.
  intros r; subst r.
  run_handler ep w st req; intros Hu Hb Hn Hk Hf; try discriminate; try congruence;
    try (split_and!; reflexivity); try (destruct Hk; fail).
  all: simplify_eq; bool_facts.
  all: cbn [In validated_fields] in Hk; destruct_or!; try done; subst k.
  all: repeat match goal with H : negb _ = false |- _ => apply negb_false_iff in H end;
    congruence.
Qed.

Lemma missing_field_is_400_witness :
  let fields := [("sourceId", JStr "s1"); ("sourceType", JStr "pdf")] in
  let r := handle process_document Demo.w Demo.st
             (Demo.post (Some "Bearer alice") fields) in
  status (response r) = 400
  ∧ text (response r)
    = Some (JS.JSON_stringify
              (error_body "sourceId, filePath, and sourceType are required"))
  ∧ lookups (trace r) = []
  ∧ dispatches (trace r) = []
  ∧ writes (trace r) = [].
Proof.
  intros fields.
  apply (missing_field_is_400 process_document Demo.w Demo.st
           (Demo.post (Some "Bearer alice") fields) "alice" "filePath" (JObj fields)).
  - vm_compute. reflexivity.
  - reflexivity.
  - reflexivity.
  - simpl. auto.
  - reflexivity.
Defined.

(** ** The document-processing scenario *)

(** C7, as stated, fails when the processor accepts the job with a body
    that is not JSON: the owner's call for [s1] is dispatched and answered
    200 by the processor, the handler's [response.json()] rejects, and
    the caller gets 500 from the catch block. *)
Lemma accepted_document_job_answered_500 :
  let req := Demo.post (Some "Bearer alice") Demo.document_fields in
  let r := handle process_document Fixtures.w_garbled Demo.st req in
  ¬ (request_prop "sourceId" req = JStr "s1" →
     request_prop "filePath" req = JStr "docs/a.pdf" →
     request_prop "sourceType" req = JStr "pdf" →
     verified_caller (trace r) = Some "alice" →
     Db.select_source_owner Demo.st "s1" = Some ("n1", "alice") →
     (∃ code txt js,
        dispatch_answer (trace r) = Some (FetchResponse code txt js) ∧ ok code = true) →
     status (response r) = 200
     ∧ payloads (trace r)
       = [JS.JSON_stringify
            (JObj [("source_id", JStr "s1");
                   ("file_url",
                    JStr "https://base/storage/v1/object/public/sources/docs/a.pdf");
                   ("file_path", JStr "docs/a.pdf");
                   ("source_type", JStr "pdf");
                   ("callback_url",
                    JStr "https://base/functions/v1/process-document-callback")])]).
Proof.
  intros req r H.
  assert (Hs : status (response r) = 200).
  { apply H; try (vm_compute; reflexivity).
    exists 200, "Workflow was started", (BodyThrows "Unexpected token W").
    vm_compute. split; reflexivity. }
  vm_compute in Hs. discriminate.
Qed.

(** C7, amended.  A document-processing call for [sourceId = "s1"],
    [filePath = "docs/a.pdf"], [sourceType = "pdf"], made by the owner of
    the parent notebook of [s1], with the store URL [base], whose
    dispatch the processor answers with a 2xx status and a JSON body:
    the one outbound payload is the five-field object of the scenario,
    and the response is 200. *)
Theorem document_scenario
    (w : World) (st : Db.Store) (req : Request) (b v : jsval)
    (u nb base txt : string) (code : nat) :
  let r := handle process_document w st req in
  body req = BodyValue b →
  JS.prop "sourceId" b = JStr "s1" →
  JS.prop "filePath" b = JStr "docs/a.pdf" →
  JS.prop "sourceType" b = JStr "pdf" →
  verified_caller (trace r) = Some u →
  Db.select_source_owner st "s1" = Some (nb, u) →
  Deno_env w !! "SUPABASE_URL" = Some base →
  dispatch_answer (trace r) = Some (FetchResponse code txt (BodyValue v)) →
  ok code = true →
  status (response r) = 200
  ∧ payloads (trace r)
    = [JS.JSON_stringify
         (JObj [("source_id", JStr "s1");
                ("file_url",
                 JStr (base +:+ "/storage/v1/object/public/sources/docs/a.pdf"));
                ("file_path", JStr "docs/a.pdf");
                ("source_type", JStr "pdf");
                ("callback_url",
                 JStr (base +:+ "/functions/v1/process-document-callback"))])].
Proof.
  intros r; subst r.
  run_one; observe; intros Hb Hs Hp Ht Hu Ho Hbase Hd Hok; try discriminate;
    simplify_eq; try (rewrite Hok in *; discriminate).
  rewrite Hbase, Hs, Hp, Ht. split; reflexivity.
Qed.

Lemma document_scenario_witness :
  let r := handle process_document Demo.w Demo.st
             (Demo.post (Some "Bearer alice") Demo.document_fields) in
  status (response r) = 200
  ∧ payloads (trace r)
    = [JS.JSON_stringify
         (JObj [("source_id", JStr "s1");
                ("file_url",
                 JStr "https://base/storage/v1/object/public/sources/docs/a.pdf");
                ("file_path", JStr "docs/a.pdf");
                ("source_type", JStr "pdf");
                ("callback_url",
                 JStr "https://base/functions/v1/process-document-callback")])].
Proof.
  apply (document_scenario Demo.w Demo.st
           (Demo.post (Some "Bearer alice") Demo.document_fields)
           (JObj Demo.document_fields) (JObj []) "alice" "n1" "https://base" "{}" 200);
    vm_compute; reflexivity.
Defined.

(** ** Content truncation *)


Example long_content_is_cut :
  let content := Demo.filler (5000 + 3) in
  String.length content = (5000 + 3)%nat
  ∧ String.length (JS.substring 0 5000 content) = 5000%nat.
Proof. vm_compute. split; reflexivity. Qed.

(** ** Determinism of the payload *)

(** C9, as stated, fails on the chat relay: the same request, under the
    same configuration, store and verifier, sent one second later, gives a
    different outbound body, because the payload carries
    [new Date().toISOString()]. *)
Lemma chat_payload_follows_the_clock :
  let w1 := Demo.world Demo.env Demo.accepting "2025-01-01T00:00:00.000Z" in
  let w2 := Demo.world Demo.env Demo.accepting "2025-01-01T00:00:01.000Z" in
  let req := Demo.post (Some "Bearer alice") Demo.chat_fields in
  ¬ (Deno_env w1 = Deno_env w2 →
     payloads (trace (handle send_chat_message w1 Demo.st req))
     = payloads (trace (handle send_chat_message w2 Demo.st req))).
Proof.
  intros w1 w2 req H. specialize (H eq_refl). vm_compute in H. discriminate.
Qed.

(** C9, amended.  Two calls whose requests carry the same Job Request
    (they may differ in everything else: method, Authorization header,
    further body fields, the store, the processor) and that run under the
    same environment send the same body, byte for byte, on the document
    and multi-source ingestion endpoints; on the content-generation
    endpoint when the stored text content read is the same; on the chat
    relay when the verified caller and the clock reading are the same. *)
Theorem payload_deterministic
    (ep : endpoint) (w1 w2 : World) (st1 st2 : Db.Store) (req1 req2 : Request)
    (p1 p2 : string) :
  let r1 := handle ep w1 st1 req1 in
  let r2 := handle ep w2 st2 req2 in
  job_request ep req1 = job_request ep req2 →
  Deno_env w1 = Deno_env w2 →
  match ep with
  | process_document | process_additional_sources => True
  | generate_notebook_content => stored_content st1 req1 = stored_content st2 req2
  | send_chat_message =>
      verified_caller (trace r1) = verified_caller (trace r2)
      ∧ Date_toISOString w1 = Date_toISOString w2
  end →
  In p1 (payloads (trace r1)) →
  In p2 (payloads (trace r2)) →
  p1 = p2.
Proof.
  intros r1 r2 Hjob Henv Hsame H1 H2.
  apply dispatched_job_payload in H1 as (u1 & j1 & Hu1 & Hj1 & ->).
  apply dispatched_job_payload in H2 as (u2 & j2 & Hu2 & Hj2 & ->).
  fold r1 in Hu1. fold r2 in Hu2. f_equal.
  rewrite <- Henv, <- (job_payload_of_job_request ep _ req1 req2 _ _ _ Hjob) in Hj2.
  destruct ep; cbn [job_payload] in Hj1, Hj2.
  - congruence.
  - congruence.
  - destruct Hsame as [Hu Hnow]. rewrite <- Hnow in Hj2.
    assert (u1 = u2) by congruence. subst u2. congruence.
  - rewrite <- Hsame in Hj2. congruence.
Qed.

Lemma payload_deterministic_witness :
  let req1 := Demo.post (Some "Bearer alice") Demo.document_fields in
  let req2 := {| method := "PUT"; authorization := Some "Bearer alice";
                 body := BodyValue (JObj (("note", JStr "again") :: Demo.document_fields)) |} in
  let r1 := handle process_document Demo.w Demo.st req1 in
  let r2 := handle process_document Demo.w_failing Demo.st req2 in
  hd "" (payloads (trace r1)) = hd "" (payloads (trace r2)).
Proof.
  intros req1 req2 r1 r2.
  apply (payload_deterministic process_document Demo.w Demo.w_failing
           Demo.st Demo.st req1 req2).
  - reflexivity.
  - reflexivity.
  - exact I.
  - vm_compute. left. reflexivity.
  - vm_compute. left. reflexivity.
Defined.

(** ** Unsupported ingestion types *)

(** C10, as stated, fails in two ways, the caller being authenticated and
    owning the notebook and the type being unsupported.  When the
    configuration check, which comes before the type branch, stops the
    call, the error reads [ADDITIONAL_SOURCES_WEBHOOK_URL not configured].
    And when the type is an object that cannot be converted to a string,
    the template literal throws in place of the handler, and the error
    is that of the conversion. *)
Lemma unsupported_type_other_errors :
  let w := Demo.world (delete "ADDITIONAL_SOURCES_WEBHOOK_URL" Demo.env)
             Demo.accepting "2025-01-01T00:00:00.000Z" in
  let b := JObj [("type", JStr "pdf"); ("notebookId", JStr "n1")] in
  let req := {| method := "POST"; authorization := Some "Bearer alice";
                body := BodyValue b |} in
  let r := handle process_additional_sources w Demo.st req in
  let b' := JObj [("type", JObj [("toString", JNum 1)]); ("notebookId", JStr "n1")] in
  let req' := {| method := "POST"; authorization := Some "Bearer alice";
                 body := BodyValue b' |} in
  let r' := handle process_additional_sources Demo.w Demo.st req' in
  ¬ (verified_caller (trace r) = Some "alice" →
     resolved_owner (trace r) = Some "alice" →
     ProcessAdditionalSources.is_literal (JS.prop "type" b) "multiple-websites" = false →
     ProcessAdditionalSources.is_literal (JS.prop "type" b) "copied-text" = false →
     status (response r) = 500
     ∧ text (response r)
       = Some (JS.JSON_stringify
                 (JObj [("error", JStr "Unsupported type: pdf");
                        ("success", JBool false)]))
     ∧ dispatches (trace r) = [])
  ∧ ¬ (verified_caller (trace r') = Some "alice" →
       resolved_owner (trace r') = Some "alice" →
       ProcessAdditionalSources.is_literal (JS.prop "type" b') "multiple-websites" = false →
       ProcessAdditionalSources.is_literal (JS.prop "type" b') "copied-text" = false →
       status (response r') = 500
       ∧ (∃ type, text (response r')
                  = Some (JS.JSON_stringify
                            (JObj [("error", JStr ("Unsupported type: " +:+ type));
                                   ("success", JBool false)])))
       ∧ dispatches (trace r') = []).
Proof.
  intros w b req r b' req' r'. split; intros H.
  - destruct H as (_ & H & _); [vm_compute; reflexivity ..|].
    vm_compute in H. discriminate.
  - destruct H as (_ & [type H] & _); [vm_compute; reflexivity ..|].
    vm_compute in H. discriminate.
Qed.

(** C10, amended.  A multi-source ingestion call that passes the
    authentication, ownership and configuration checks and whose [type]
    is neither ['multiple-websites'] nor ['copied-text'], and is a value
    that [String(type)] converts, is answered 500 with the error
    [Unsupported type: <type>]; nothing is dispatched and nothing is
    written. *)
Theorem unsupported_type_is_500
    (w : World) (st : Db.Store) (req : Request) (u : string) (b : jsval) :
  let r := handle process_additional_sources w st req in
  let type := JS.prop "type" b in
  verified_caller (trace r) = Some u →
  resolved_owner (trace r) = Some u →
  existsb (λ name, config_missing name (trace r))
    (required_config process_additional_sources) = false →
  body req = BodyValue b →
  JS.string_throws type = false →
  ProcessAdditionalSources.is_literal type "multiple-websites" = false →
  ProcessAdditionalSources.is_literal type "copied-text" = false →
  status (response r) = 500
  ∧ text (response r)
    = Some (JS.JSON_stringify
              (JObj [("error", JStr ("Unsupported type: " +:+ JS.to_string type));
                     ("success", JBool false)]))
  ∧ dispatches (trace r) = []
  ∧ writes (trace r) = []
  ∧ store r = st.
Proof.
  intros r type; subst r type. run_one; intros Hu Ho Hc Hb Hs H1 H2; try discriminate;
    try congruence; simplify_eq.
  all: try (rewrite String.eqb_refl in *; discriminate).
  all: try (config_facts Hc; rewrite ?orb_false_r in Hc;
            repeat match goal with H : (_ =? _) = _ |- _ => rewrite H in Hc end;
            cbn [negb orb andb] in Hc; discriminate).
  all: try (unfold ProcessAdditionalSources.webhookPayload in *;
            rewrite H1, H2 in *; discriminate).
  all: split_and!; reflexivity.
Qed.

Lemma unsupported_type_is_500_witness :
  let b := JObj [("type", JStr "pdf"); ("notebookId", JStr "n1")] in
  let req := {| method := "POST"; authorization := Some "Bearer alice";
                body := BodyValue b |} in
  let r := handle process_additional_sources Demo.w Demo.st req in
  status (response r) = 500
  ∧ text (response r)
    = Some (JS.JSON_stringify
              (JObj [("error", JStr "Unsupported type: pdf"); ("success", JBool false)]))
  ∧ dispatches (trace r) = []
  ∧ writes (trace r) = []
  ∧ store r = Demo.st.
Proof.
  intros b req.
  apply (unsupported_type_is_500 Demo.w Demo.st req "alice" b);
    vm_compute; reflexivity.
Defined.

(** * Further properties of the handlers *)

(** X1. When the identity verifier reports an error or no user for the
    caller's token, the handler answers 401 with the error [Unauthorized -
    invalid or expired token]; it has read nothing from the store, written
    nothing and dispatched nothing. *)
Theorem refused_token_is_401
    (ep : endpoint) (w : World) (st : Db.Store) (req : Request) :
  let r := handle ep w st req in
  verifier_refused (trace r) = true →
  status (response r) = 401
  ∧ text (response r)
    = Some (JS.JSON_stringify (error_body "Unauthorized - invalid or expired token"))
  ∧ lookups (trace r) = []
  ∧ dispatches (trace r) = []
  ∧ writes (trace r) = []
  ∧ store r = st.
Proof.
  intros r; subst r.
  run_handler ep w st req; observe; intros Hv; try discriminate;
    split_and!; reflexivity.
Qed.

Lemma refused_token_is_401_witness :
  let r := handle send_chat_message Demo.w Demo.st
             (Demo.post (Some "Bearer eve") Demo.chat_fields) in
  status (response r) = 401
  ∧ text (response r)
    = Some (JS.JSON_stringify (error_body "Unauthorized - invalid or expired token"))
  ∧ lookups (trace r) = []
  ∧ dispatches (trace r) = []
  ∧ writes (trace r) = []
  ∧ store r = Demo.st.
Proof.
  apply (refused_token_is_401 send_chat_message Demo.w Demo.st
           (Demo.post (Some "Bearer eve") Demo.chat_fields)).
  vm_compute. reflexivity.
Defined.

(** X2. When the ownership lookup finds no row (no such source, no such
    notebook), the handler answers 404, dispatches nothing and leaves the
    store as it was. *)
Theorem unknown_resource_is_404
    (ep : endpoint) (w : World) (st : Db.Store) (req : Request) :
  let r := handle ep w st req in
  owner_lookup_empty (trace r) = true →
  status (response r) = 404
  ∧ dispatches (trace r) = []
  ∧ writes (trace r) = []
  ∧ store r = st.
Proof.
  intros r; subst r.
  run_handler ep w st req; observe; intros Hv; try discriminate;
    split_and!; reflexivity.
Qed.

Lemma unknown_resource_is_404_witness :
  let req := Fixtures.as_alice
               [("sourceId", JStr "s9"); ("filePath", JStr "docs/a.pdf");
                ("sourceType", JStr "pdf")] in
  let r := handle process_document Demo.w Demo.st req in
  status (response r) = 404
  ∧ dispatches (trace r) = []
  ∧ writes (trace r) = []
  ∧ store r = Demo.st.
Proof.
  intros req.
  apply (unknown_resource_is_404 process_document Demo.w Demo.st req).
  vm_compute. reflexivity.
Defined.

(** X3. An authenticated call whose body is not JSON, or is the JSON value
    [null], ends in the catch block: 500, with no store lookup, no
    dispatch and no write. *)
Theorem unreadable_body_is_500
    (ep : endpoint) (w : World) (st : Db.Store) (req : Request) (u message : string) :
  let r := handle ep w st req in
  verified_caller (trace r) = Some u →
  body req = BodyThrows message ∨ body req = BodyValue JNull →
  status (response r) = 500
  ∧ lookups (trace r) = []
  ∧ dispatches (trace r) = []
  ∧ writes (trace r) = []
  ∧ store r = st.
Proof.
  intros r; subst r.
  run_handler ep w st req; intros Hu [Hb|Hb]; try discriminate; simplify_eq;
    try discriminate; split_and!; reflexivity.
Qed.

Lemma unreadable_body_is_500_witness :
  let req := {| method := "POST"; authorization := Some "Bearer alice";
                body := BodyThrows "Unexpected end of JSON input" |} in
  let r := handle process_additional_sources Demo.w Demo.st req in
  status (response r) = 500
  ∧ lookups (trace r) = []
  ∧ dispatches (trace r) = []
  ∧ writes (trace r) = []
  ∧ store r = Demo.st.
Proof.
  intros req.
  apply (unreadable_body_is_500 process_additional_sources Demo.w Demo.st req
           "alice" "Unexpected end of JSON input").
  - vm_compute. reflexivity.
  - left. reflexivity.
Defined.

(** X4. A call that dispatches a job or writes to the store has a verified
    caller, and, on the three endpoints that act on a resource, that caller
    is the resolved owner of the resource. *)
Theorem effects_need_authorization
    (ep : endpoint) (w : World) (st : Db.Store) (req : Request) :
  let r := handle ep w st req in
  dispatches (trace r) ≠ [] ∨ writes (trace r) ≠ [] →
  ∃ u, verified_caller (trace r) = Some u
       ∧ match ep with
         | send_chat_message => True
         | _ => resolved_owner (trace r) = Some u
         end.
Proof.
  intros r; subst r.
  run_handler ep w st req; intros [H|H]; try done.
  all: eexists; split; [reflexivity|]; try exact I.
  all: match goal with H : negb (_ =? _) = false |- _ =>
         apply eqb_negb_false in H; by subst end.
Qed.

Lemma effects_need_authorization_witness :
  let r := handle process_document Demo.w Demo.st
             (Fixtures.as_alice Demo.document_fields) in
  ∃ u, verified_caller (trace r) = Some u ∧ resolved_owner (trace r) = Some u.
Proof.
  apply (effects_need_authorization process_document Demo.w Demo.st
           (Fixtures.as_alice Demo.document_fields)).
  left. vm_compute. discriminate.
Defined.

(** X5. A handler answers 200 only to an OPTIONS preflight or after the
    processor has answered the dispatch with a status in 200..299. *)
Theorem success_needs_accepted_dispatch
    (ep : endpoint) (w : World) (st : Db.Store) (req : Request) :
  let r := handle ep w st req in
  status (response r) = 200 →
  method req = "OPTIONS"
  ∨ ∃ code txt js,
      dispatch_answer (trace r) = Some (FetchResponse code txt js) ∧ ok code = true.
Proof.
  intros r; subst r.
  run_handler ep w st req; observe; intros Hs; try discriminate.
  all: try (left; by apply String.eqb_eq).
  all: right; do 3 eexists; split; [reflexivity|];
    match goal with H : negb (ok _) = false |- _ => by apply negb_false_iff in H end.
Qed.

Lemma success_needs_accepted_dispatch_witness :
  let req := Fixtures.as_alice Demo.chat_fields in
  let r := handle send_chat_message Demo.w Demo.st req in
  method req = "OPTIONS"
  ∨ ∃ code txt js,
      dispatch_answer (trace r) = Some (FetchResponse code txt js) ∧ ok code = true.
Proof.
  intros req.
  apply (success_needs_accepted_dispatch send_chat_message Demo.w Demo.st req).
  vm_compute. reflexivity.
Defined.

(** X6. The response status is always one of 200, 400, 401, 403, 404, 500;
    the multi-source ingestion handler never answers 400, the chat relay
    neither 400 nor 403 nor 404. *)
Theorem status_is_listed
    (ep : endpoint) (w : World) (st : Db.Store) (req : Request) :
  In (status (response (handle ep w st req))) (status_codes ep).
Proof.
  run_handler ep w st req; observe; cbn [In]; tauto.
Qed.

(** X7. Every response of every handler, on every path (preflight, early
    return, success, catch block), carries the two cross-origin headers. *)
Theorem cors_headers_on_every_response
    (ep : endpoint) (w : World) (st : Db.Store) (req : Request) (h : string * string) :
  In h corsHeaders → In h (headers (response (handle ep w st req))).
Proof.
  intros Hh.
  run_handler ep w st req; observe;
    first [ exact Hh | apply in_or_app; left; exact Hh | right; exact Hh ].
Qed.

Lemma cors_headers_on_every_response_witness :
  In ("Access-Control-Allow-Origin", "*")
    (headers (response (handle process_additional_sources Fixtures.w_unreachable Demo.st
                          (Fixtures.as_alice Demo.websites_fields)))).
Proof.
  apply (cors_headers_on_every_response process_additional_sources
           Fixtures.w_unreachable Demo.st (Fixtures.as_alice Demo.websites_fields)).
  left. reflexivity.
Defined.

(** X8. A call dispatches at most once (no retry).  The dispatch goes to the
    URL held by the endpoint's environment variable, with a JSON
    Content-Type, and with the shared secret as its Authorization header
    whenever the secret is set. *)
Theorem one_dispatch_to_the_configured_endpoint
    (ep : endpoint) (w : World) (st : Db.Store) (req : Request)
    (url p : string) (hdrs : list (string * string)) (res : fetch_result) (rest : list event) :
  let r := handle ep w st req in
  dispatches (trace r) = EvFetch url hdrs p res :: rest →
  rest = []
  ∧ Deno_env w !! endpoint_url ep = Some url
  ∧ url ≠ ""
  ∧ In ("Content-Type", "application/json") hdrs
  ∧ ∀ secret, Deno_env w !! shared_secret = Some secret → secret ≠ "" →
              In ("Authorization", secret) hdrs.
Proof.
  intros r; subst r.
  run_handler ep w st req; intros Hd; try discriminate; simplify_eq; bool_facts.
  all: cbn [endpoint_url]; unfold shared_secret, ProcessDocument.webhookHeaders,
         GenerateNotebookContent.the in *.
  all: repeat match goal with
         | H : negb (JS.truthy_opt ?o) = false |- _ =>
             destruct o as [?|] eqn:?; cbn in H; [|discriminate H]
         end.
  all: repeat match goal with
         | H : negb (negb (_ =? _)) = false |- _ => cbn in H
         end.
  all: split_and!; try done; cbn [default In]; auto.
  all: try (apply String.eqb_neq; assumption).
  all: try (intros secret Hs Hne; apply String.eqb_neq in Hne; simplify_eq;
    try rewrite Hs; try rewrite Hne; cbn [In]; by auto).
  all: cbn [id]; apply String.eqb_neq;
    match goal with H : negb (negb ?b) = false |- ?b = false => by destruct b end.
Qed.

Lemma one_dispatch_to_the_configured_endpoint_witness :
  let hdrs := [("Content-Type", "application/json"); ("Authorization", "secret")] in
  @nil event = []
  ∧ Deno_env Demo.w !! endpoint_url process_document = Some "https://n8n/doc"
  ∧ "https://n8n/doc" ≠ ""
  ∧ In ("Content-Type", "application/json") hdrs
  ∧ ∀ secret, Deno_env Demo.w !! shared_secret = Some secret → secret ≠ "" →
              In ("Authorization", secret) hdrs.
Proof.
  intros hdrs.
  apply (one_dispatch_to_the_configured_endpoint process_document Demo.w Demo.st
           (Fixtures.as_alice Demo.document_fields) "https://n8n/doc"
           (JS.JSON_stringify
              (ProcessDocument.payload (Some "https://base") (Some "https://base")
                 (JStr "s1") (JStr "docs/a.pdf") (JStr "pdf")))
           hdrs (FetchResponse 200 "{}" (BodyValue (JObj []))) []).
  vm_compute. reflexivity.
Defined.

(** X9. When [fetch] itself rejects (the processor cannot be reached), the
    caller gets 500 from the catch block, which writes no status: the
    document, ingestion and chat handlers leave the store untouched, and
    the content-generation handler leaves the notebook in [generating]. *)
Theorem dispatch_exception_outcome
    (ep : endpoint) (w : World) (st : Db.Store) (req : Request) (message : string) :
  let r := handle ep w st req in
  dispatch_answer (trace r) = Some (FetchThrows message) →
  status (response r) = 500
  ∧ match ep with
    | generate_notebook_content => status_after ep req (store r) = Some "generating"
    | _ => writes (trace r) = [] ∧ store r = st
    end.
Proof.
  intros r; subst r.
  run_handler ep w st req; observe; intros Hd; try discriminate;
    try (split_and!; reflexivity).
  all: split; [reflexivity|]; unfold status_after, request_prop;
    match goal with H : body _ = _ |- _ => rewrite H end.
  all: apply notebook_status_updated; eauto using select_notebook_owner_Some.
Qed.

Lemma dispatch_exception_outcome_witness :
  let req := Fixtures.as_alice Demo.generation_fields in
  let r := handle generate_notebook_content Fixtures.w_unreachable Demo.st req in
  status (response r) = 500
  ∧ status_after generate_notebook_content req (store r) = Some "generating".
Proof.
  intros req.
  apply (dispatch_exception_outcome generate_notebook_content Fixtures.w_unreachable
           Demo.st req "error sending request").
  vm_compute. reflexivity.
Defined.

(** X10. When the processor accepts (2xx) with a body that is not JSON, the
    ingestion handler, which reads the body as text, answers 200; the
    document and chat handlers answer 500 without writing; the
    content-generation handler answers 500 and leaves the notebook in
    [generating]. *)
Theorem unparseable_answer_outcome
    (ep : endpoint) (w : World) (st : Db.Store) (req : Request)
    (code : nat) (txt message : string) :
  let r := handle ep w st req in
  dispatch_answer (trace r) = Some (FetchResponse code txt (BodyThrows message)) →
  ok code = true →
  match ep with
  | process_additional_sources => status (response r) = 200
  | generate_notebook_content =>
      status (response r) = 500 ∧ status_after ep req (store r) = Some "generating"
  | _ => status (response r) = 500 ∧ writes (trace r) = [] ∧ store r = st
  end.
Proof.
  intros r; subst r.
  run_handler ep w st req; observe; intros Hd Hok; try discriminate; simplify_eq;
    try (rewrite Hok in *; discriminate); try (split_and?; reflexivity).
  all: split; [reflexivity|]; unfold status_after, request_prop;
    match goal with H : body _ = _ |- _ => rewrite H end.
  all: apply notebook_status_updated; eauto using select_notebook_owner_Some.
Qed.

Lemma unparseable_answer_outcome_witness :
  let r := handle process_document Fixtures.w_garbled Demo.st
             (Fixtures.as_alice Demo.document_fields) in
  status (response r) = 500 ∧ writes (trace r) = [] ∧ store r = Demo.st.
Proof.
  apply (unparseable_answer_outcome process_document Fixtures.w_garbled Demo.st
           (Fixtures.as_alice Demo.document_fields)
           200 "Workflow was started" "Unexpected token W").
  - vm_compute. reflexivity.
  - reflexivity.
Defined.

(** X11. What the caller learns when the processor answers outside 200..299:
    the document handler passes the processor's body on as [details], the
    ingestion handler puts status and body into [error], the chat relay the
    status only, the content-generation handler neither. *)
Theorem upstream_failure_disclosure
    (ep : endpoint) (w : World) (st : Db.Store) (req : Request)
    (code : nat) (txt : string) (js : body_outcome) :
  let r := handle ep w st req in
  dispatch_answer (trace r) = Some (FetchResponse code txt js) →
  ok code = false →
  text (response r) = Some (JS.JSON_stringify (upstream_failure_body ep code txt)).
Proof.
  intros r; subst r.
  run_handler ep w st req; observe; intros Hd Hok; try discriminate; simplify_eq;
    try (rewrite Hok in *; discriminate); try reflexivity.
Qed.

Lemma upstream_failure_disclosure_witness :
  let r := handle process_additional_sources Demo.w_failing Demo.st
             (Fixtures.as_alice Demo.websites_fields) in
  text (response r)
  = Some (JS.JSON_stringify
            (upstream_failure_body process_additional_sources 502 "Bad Gateway")).
Proof.
  apply (upstream_failure_disclosure process_additional_sources Demo.w_failing Demo.st
           (Fixtures.as_alice Demo.websites_fields)
           502 "Bad Gateway" (BodyThrows "Unexpected token")).
  - vm_compute. reflexivity.
  - reflexivity.
Defined.

(** X12. When the processor accepts a document, ingestion or chat job, the
    caller gets 200 with the success envelope: the parsed answer as
    [result] (document) or [data] (chat), the answer's text as
    [webhookResponse] (ingestion); the store is not touched. *)
Theorem accepted_job_envelope
    (ep : endpoint) (w : World) (st : Db.Store) (req : Request)
    (code : nat) (txt : string) (v b : jsval) :
  let r := handle ep w st req in
  accepted_body ep req txt v = Some b →
  dispatch_answer (trace r) = Some (FetchResponse code txt (BodyValue v)) →
  ok code = true →
  status (response r) = 200
  ∧ text (response r) = Some (JS.JSON_stringify b)
  ∧ store r = st.
Proof.
  intros r; subst r.
  run_handler ep w st req; observe; intros Hb Hd Hok; cbn [accepted_body] in Hb;
    try discriminate; simplify_eq; try (rewrite Hok in *; discriminate).
  all: unfold request_prop;
    try match goal with H : body _ = _ |- _ => rewrite H end; split_and!; reflexivity.
Qed.

Lemma accepted_job_envelope_witness :
  let r := handle send_chat_message Demo.w Demo.st
             (Fixtures.as_alice Demo.chat_fields) in
  status (response r) = 200
  ∧ text (response r)
    = Some (JS.JSON_stringify (JObj [("success", JBool true); ("data", JObj [])]))
  ∧ store r = Demo.st.
Proof.
  apply (accepted_job_envelope send_chat_message Demo.w Demo.st
           (Fixtures.as_alice Demo.chat_fields) 200 "{}" (JObj [])
           (JObj [("success", JBool true); ("data", JObj [])])).
  - reflexivity.
  - vm_compute. reflexivity.
  - reflexivity.
Defined.

(** X13. Whatever the call, the ingestion and chat handlers leave the store as
    it was; the document handler changes at most the [processing_status]
    of the source named in the body; the content-generation handler changes
    at most the row of the notebook named in the body, and never its
    owner. *)
Theorem writes_are_confined
    (ep : endpoint) (w : World) (st : Db.Store) (req : Request) :
  let r := handle ep w st req in
  match ep with
  | process_document =>
      only_source_status (JS.to_string (request_prop "sourceId" req)) st (store r)
  | generate_notebook_content =>
      only_notebook_fields (JS.to_string (request_prop "notebookId" req)) st (store r)
  | process_additional_sources | send_chat_message => store r = st
  end.
Proof.
  intros r; subst r.
  run_handler ep w st req; try reflexivity;
    try apply only_source_status_refl; try apply only_notebook_fields_refl.
  all: unfold request_prop; match goal with H : body _ = _ |- _ => rewrite H end.
  all: first [ apply only_source_status_update
             | repeat apply only_notebook_fields_update;
               apply only_notebook_fields_refl ].
Qed.

(** X14. When the generator accepts and its answer has an [output] with a
    title, the handler rewrites the notebook row from the output: title,
    description (or null), icon and colour (or their defaults), example
    questions (or none), status [completed]; its owner is kept.  When the
    store accepts that update the caller gets 200 with the generated
    fields; when the store reports an error the caller gets 500 with
    [Failed to update notebook] and the notebook stays in [generating]. *)
Theorem generation_success
    (w : World) (st : Db.Store) (req : Request)
    (code : nat) (txt : string) (v : jsval) :
  let r := handle generate_notebook_content w st req in
  let output := JS.prop "output" v in
  let id := JS.to_string (request_prop "notebookId" req) in
  dispatch_answer (trace r) = Some (FetchResponse code txt (BodyValue v)) →
  ok code = true →
  JS.truthy (JS.prop "title" output) = true →
  match update_error w id (generated_fields output) with
  | None =>
      status (response r) = 200
      ∧ text (response r) = Some (JS.JSON_stringify (generated_body output))
      ∧ Db.notebooks (store r) !! id
        = Db.apply_notebook_update (generated_fields output) <$> Db.notebooks st !! id
  | Some _ =>
      status (response r) = 500
      ∧ text (response r)
        = Some (JS.JSON_stringify (error_body "Failed to update notebook"))
      ∧ status_after generate_notebook_content req (store r) = Some "generating"
  end.
Proof.
  intros r output id; subst r output id.
  run_one; observe; intros Hd Hok Ht; try discriminate; simplify_eq;
    try (rewrite Hok in *; discriminate).
  all: try (pose proof (truthy_prop _ _ Ht) as Ho; pose proof (truthy_prop _ _ Ho) as Hv;
            rewrite ?Ho, ?Hv, ?Ht in *; discriminate).
  all: unfold status_after, request_prop in *;
    match goal with H : body _ = _ |- _ => rewrite H in * end.
  all: repeat match goal with
         | H : update_error _ _ (Db.SetGenerated _ _ _ _ _) = _ |- _ =>
             rewrite generated_fields_update in H
         end; try congruence.
  all: split_and!; try reflexivity.
  all: first
    [ rewrite generated_fields_update; apply notebook_updated_twice
    | apply notebook_status_updated; eauto using select_notebook_owner_Some ].
Qed.

Lemma generation_success_witness :
  let req := Fixtures.as_alice Demo.generation_fields in
  let r := handle generate_notebook_content Fixtures.w_titled Demo.st req in
  let output := JObj [("title", JStr "T")] in
  status (response r) = 200
  ∧ text (response r) = Some (JS.JSON_stringify (generated_body output))
  ∧ Db.notebooks (store r) !! "n1"
    = Db.apply_notebook_update (generated_fields output) <$> Db.notebooks Demo.st !! "n1".
Proof.
  intros req.
  apply (generation_success Fixtures.w_titled Demo.st req 200 ""
           (JObj [("output", JObj [("title", JStr "T")])])).
  - vm_compute. reflexivity.
  - reflexivity.
  - reflexivity.
Defined.

(** When the store refuses the final update, the caller gets 500 and the
    notebook stays in [generating]. *)
Example refused_update_is_500 :
  let req := Fixtures.as_alice Demo.generation_fields in
  let r := handle generate_notebook_content Fixtures.w_refusing Demo.st req in
  status (response r) = 500
  ∧ text (response r) = Some (JS.JSON_stringify (error_body "Failed to update notebook"))
  ∧ status_after generate_notebook_content req (store r) = Some "generating".
Proof. vm_compute. split_and!; reflexivity. Qed.

(** X15. When the generator accepts but its answer has no usable title, the
    caller gets 500, with [Invalid response format from web service] when
    there is no [output] and [No title in response from web service] when
    there is one, and the notebook's status is [failed]. *)
Theorem generation_unusable_answer
    (w : World) (st : Db.Store) (req : Request)
    (code : nat) (txt : string) (v : jsval) :
  let r := handle generate_notebook_content w st req in
  let output := JS.prop "output" v in
  dispatch_answer (trace r) = Some (FetchResponse code txt (BodyValue v)) →
  ok code = true →
  JS.truthy (JS.prop "title" output) = false →
  status (response r) = 500
  ∧ text (response r)
    = Some (JS.JSON_stringify
              (error_body (if JS.truthy v && JS.truthy output
                           then "No title in response from web service"
                           else "Invalid response format from web service")))
  ∧ status_after generate_notebook_content req (store r) = Some "failed".
Proof.
  intros r output; subst r output.
  run_one; observe; intros Hd Hok Ht; try discriminate; simplify_eq;
    try (rewrite Hok in *; discriminate); try (rewrite Ht in *; discriminate).
  all: try (match goal with
            | H1 : negb ?b = _, H2 : ?b = _ |- _ => rewrite H2 in H1; discriminate H1
            end).
  all: split_and!; try reflexivity.
  all: unfold status_after, request_prop;
    match goal with H : body _ = _ |- _ => rewrite H end.
  all: apply notebook_status_updated, notebook_update_keeps;
    eauto using select_notebook_owner_Some.
Qed.

Lemma generation_unusable_answer_witness :
  let req := Fixtures.as_alice Demo.generation_fields in
  let r := handle generate_notebook_content Fixtures.w_untitled Demo.st req in
  status (response r) = 500
  ∧ text (response r)
    = Some (JS.JSON_stringify (error_body "No title in response from web service"))
  ∧ status_after generate_notebook_content req (store r) = Some "failed".
Proof.
  intros req.
  apply (generation_unusable_answer Fixtures.w_untitled Demo.st req 200 ""
           (JObj [("output", JObj [])])).
  - vm_compute. reflexivity.
  - reflexivity.
  - reflexivity.
Defined.

(** X16. A content-generation call that names a [filePath] never queries the
    stored content, and what it dispatches is [sourceType] and [filePath]
    only. *)
Theorem file_source_skips_content_query
    (w : World) (st : Db.Store) (req : Request) :
  let r := handle generate_notebook_content w st req in
  JS.truthy (request_prop "filePath" req) = true →
  List.filter is_content_query (trace r) = []
  ∧ ∀ p, In p (payloads (trace r)) →
         p = JS.JSON_stringify
               (JObj [("sourceType", request_prop "sourceType" req);
                      ("filePath", request_prop "filePath" req)]).
Proof.
  intros r Hf; subst r. split.
  - revert Hf. run_one; cbn [List.filter is_content_query]; intros Hf; try reflexivity.
    all: unfold request_prop in Hf;
      match goal with H : body _ = _ |- _ => rewrite H in Hf end; congruence.
  - intros p Hp. apply dispatched_job_payload in Hp as (u & j & _ & Hj & ->).
    revert Hj. unfold job_payload. rewrite Hf. by intros [= <-].
Qed.

Lemma file_source_skips_content_query_witness :
  let req := Fixtures.as_alice Fixtures.file_generation_fields in
  let r := handle generate_notebook_content Fixtures.w_titled Demo.st req in
  List.filter is_content_query (trace r) = []
  ∧ ∀ p, In p (payloads (trace r)) →
         p = JS.JSON_stringify
               (JObj [("sourceType", JStr "pdf"); ("filePath", JStr "docs/a.pdf")]).
Proof.
  intros req.
  apply (file_source_skips_content_query Fixtures.w_titled Demo.st req).
  reflexivity.
Defined.

(** X17. A content-generation call without [filePath] sends stored content
    only when the notebook has exactly one source.  For a notebook with
    no source, or with two or more, whatever the handler dispatches is
    the object [{ sourceType }] alone: the generator gets no content. *)
Theorem ambiguous_content_is_not_sent
    (w : World) (st : Db.Store) (req : Request) (p : string) :
  let r := handle generate_notebook_content w st req in
  let nb := JS.to_string (request_prop "notebookId" req) in
  JS.truthy (request_prop "filePath" req) = false →
  (∀ id row, Db.sources st !! id = Some row → Db.notebook_id row ≠ nb)
  ∨ (∃ id1 id2 row1 row2,
       id1 ≠ id2
       ∧ Db.sources st !! id1 = Some row1 ∧ Db.notebook_id row1 = nb
       ∧ Db.sources st !! id2 = Some row2 ∧ Db.notebook_id row2 = nb) →
  In p (payloads (trace r)) →
  p = JS.JSON_stringify (JObj [("sourceType", request_prop "sourceType" req)]).
Proof.
  intros r nb Hf Hrows Hp; subst r nb.
  apply dispatched_job_payload in Hp as (u & j & _ & Hj & ->).
  revert Hj. unfold job_payload, stored_content. rewrite Hf.
  destruct (Db.select_single_content _ _) as [c|] eqn:Hc; [|by intros [= <-]].
  exfalso. apply single_content_row in Hc as (id & row & Hs & Hn & _ & Huniq).
  destruct Hrows as [Hnone | (id1 & id2 & row1 & row2 & Hne & Hs1 & Hn1 & Hs2 & Hn2)].
  - exact (Hnone _ _ Hs Hn).
  - apply Hne. by rewrite (Huniq _ _ Hs1 Hn1), (Huniq _ _ Hs2 Hn2).
Qed.

Lemma ambiguous_content_is_not_sent_witness :
  let req := Fixtures.as_alice Demo.generation_fields in
  let r := handle generate_notebook_content Fixtures.w_titled Fixtures.st_two_sources req in
  hd "" (payloads (trace r)) = JS.JSON_stringify (JObj [("sourceType", JStr "text")]).
Proof.
  intros req.
  apply (ambiguous_content_is_not_sent Fixtures.w_titled Fixtures.st_two_sources req).
  - reflexivity.
  - right. exists "s1", "s2". do 2 eexists.
    split_and!; [discriminate | vm_compute; reflexivity | reflexivity
                | vm_compute; reflexivity | reflexivity].
  - vm_compute. left. reflexivity.
Defined.

(** X18. Whatever the ingestion handler dispatches is one of two objects: for
    [multiple-websites], the body's [urls] and [sourceIds] as they came
    (no pairing, no length check); for [copied-text], the title, the
    content and the first element of [sourceIds] as [sourceId]. *)
Theorem ingestion_payload_shapes
    (w : World) (st : Db.Store) (req : Request) (p : string) :
  let r := handle process_additional_sources w st req in
  let type := request_prop "type" req in
  In p (payloads (trace r)) →
  (ProcessAdditionalSources.is_literal type "multiple-websites" = true
   ∧ p = JS.JSON_stringify
           (JObj [("type", JStr "multiple-websites");
                  ("notebookId", request_prop "notebookId" req);
                  ("urls", request_prop "urls" req);
                  ("sourceIds", request_prop "sourceIds" req);
                  ("timestamp", request_prop "timestamp" req)]))
  ∨ (ProcessAdditionalSources.is_literal type "copied-text" = true
     ∧ p = JS.JSON_stringify
             (JObj [("type", JStr "copied-text");
                    ("notebookId", request_prop "notebookId" req);
                    ("title", request_prop "title" req);
                    ("content", request_prop "content" req);
                    ("sourceId", JS.first_elem (request_prop "sourceIds" req));
                    ("timestamp", request_prop "timestamp" req)])).
Proof.
  intros r type Hp; subst r type.
  apply dispatched_job_payload in Hp as (u & j & _ & Hj & ->).
  revert Hj. unfold job_payload, ProcessAdditionalSources.webhookPayload.
  destruct (ProcessAdditionalSources.is_literal _ "multiple-websites").
  { intros [= <-]. left. split; reflexivity. }
  destruct (ProcessAdditionalSources.is_literal _ "copied-text").
  { intros [= <-]. right. split; reflexivity. }
  discriminate.
Qed.

Lemma ingestion_payload_shapes_witness :
  let req := Fixtures.as_alice Fixtures.uneven_websites in
  let r := handle process_additional_sources Demo.w Demo.st req in
  let type := request_prop "type" req in
  let p := hd "" (payloads (trace r)) in
  (ProcessAdditionalSources.is_literal type "multiple-websites" = true
   ∧ p = JS.JSON_stringify
           (JObj [("type", JStr "multiple-websites");
                  ("notebookId", request_prop "notebookId" req);
                  ("urls", request_prop "urls" req);
                  ("sourceIds", request_prop "sourceIds" req);
                  ("timestamp", request_prop "timestamp" req)]))
  ∨ (ProcessAdditionalSources.is_literal type "copied-text" = true
     ∧ p = JS.JSON_stringify
             (JObj [("type", JStr "copied-text");
                    ("notebookId", request_prop "notebookId" req);
                    ("title", request_prop "title" req);
                    ("content", request_prop "content" req);
                    ("sourceId", JS.first_elem (request_prop "sourceIds" req));
                    ("timestamp", request_prop "timestamp" req)])).
Proof.
  intros req r type p.
  apply (ingestion_payload_shapes Demo.w Demo.st req p).
  vm_compute. left. reflexivity.
Defined.

(** X19. The chat relay's outbound body depends on the request only through
    the Authorization header and the body's [session_id] and [message]: a
    [user_id] (or anything else) put into the body changes nothing of what
    is sent. *)
Theorem relay_payload_ignores_other_fields
    (w : World) (st : Db.Store) (req1 req2 : Request) (p1 p2 : string) :
  authorization req1 = authorization req2 →
  request_prop "session_id" req1 = request_prop "session_id" req2 →
  request_prop "message" req1 = request_prop "message" req2 →
  In p1 (payloads (trace (handle send_chat_message w st req1))) →
  In p2 (payloads (trace (handle send_chat_message w st req2))) →
  p1 = p2.
Proof.
  intros Ha Hs Hm H1 H2.
  apply dispatched_payload in H1 as (u1 & Hu1 & Hp1).
  apply dispatched_payload in H2 as (u2 & Hu2 & Hp2).
  apply verified_caller_from_header in Hu1 as (h1 & Hh1 & Hv1).
  apply verified_caller_from_header in Hu2 as (h2 & Hh2 & Hv2).
  cbn [job_payload] in Hp1, Hp2.
  rewrite Hs, Hm in Hp1. assert (u1 = u2) by congruence. subst u2. congruence.
Qed.

Lemma relay_payload_ignores_other_fields_witness :
  let req1 := Fixtures.as_alice (("user_id", JStr "mallory") :: Demo.chat_fields) in
  let req2 := Fixtures.as_alice Demo.chat_fields in
  hd "" (payloads (trace (handle send_chat_message Demo.w Demo.st req1)))
  = hd "" (payloads (trace (handle send_chat_message Demo.w Demo.st req2))).
Proof.
  intros req1 req2.
  apply (relay_payload_ignores_other_fields Demo.w Demo.st req1 req2);
    first [ reflexivity | vm_compute; left; reflexivity ].
Defined.

(** X20. The chat relay never queries the store and resolves no owner: it has
    no ownership check. *)
Theorem chat_relay_never_reads_the_store
    (w : World) (st : Db.Store) (req : Request) :
  let r := handle send_chat_message w st req in
  lookups (trace r) = [] ∧ resolved_owner (trace r) = None.
Proof.
  intros r; subst r. run_one; by split.
Qed.

(** X21. A deployment without the store URL, or without the key of the
    client a handler is about to create, cannot serve: the client's
    constructor throws, the caller gets 500, and nothing has been read
    from the store, dispatched or written. *)
Theorem missing_store_credentials_is_500
    (ep : endpoint) (w : World) (st : Db.Store) (req : Request) :
  let r := handle ep w st req in
  existsb (λ name, config_missing name (trace r))
    ["SUPABASE_URL"; "SUPABASE_ANON_KEY"; "SUPABASE_SERVICE_ROLE_KEY"] = true →
  status (response r) = 500
  ∧ lookups (trace r) = []
  ∧ dispatches (trace r) = []
  ∧ writes (trace r) = []
  ∧ store r = st.
Proof.
  intros r; subst r.
  run_handler ep w st req; intros Hd;
    cbn [existsb config_missing String.eqb Ascii.eqb Bool.eqb andb orb] in Hd;
    try discriminate; try (split_and!; reflexivity).
  all: repeat match goal with H : negb _ = false |- _ => rewrite H in Hd end;
    cbn [negb orb andb] in Hd; rewrite ?orb_false_r in Hd; try discriminate.
Qed.

Lemma missing_store_credentials_is_500_witness :
  let w := Demo.world (delete "SUPABASE_SERVICE_ROLE_KEY" Demo.env)
             Demo.accepting Fixtures.now in
  let r := handle process_document w Demo.st (Fixtures.as_alice Demo.document_fields) in
  status (response r) = 500
  ∧ lookups (trace r) = []
  ∧ dispatches (trace r) = []
  ∧ writes (trace r) = []
  ∧ store r = Demo.st.
Proof.
  intros w.
  apply (missing_store_credentials_is_500 process_document w Demo.st
           (Fixtures.as_alice Demo.document_fields)).
  vm_compute. reflexivity.
Defined.
